(** * Room-booking backend: the booking routes

    A shallow embedding of the request handlers of the bookings router
    (POST /, PUT /:id, PATCH /:id/cancel, DELETE /:id, PATCH /:id/status,
    DELETE /admin/:id) together with the collaborators they call, and the
    properties of the booking rules proved of them.

    Conventions.
    - A JavaScript [Date] is its time value: milliseconds since the epoch,
      as a [Z]; an Invalid Date is [None].  One request reads the clock
      once.
    - A handler is a function from the world (booking collection, room
      collection, upload directory) to a response and a new world.  An early
      [return res.status(..).json(..)] and a thrown exception are the two
      ways of leaving the [try] body before its end.
    - JavaScript numbers are modelled by [Z]; the embedding covers the
      integer values the booking rules work with, and NaN as [None].
    - The database answers the queries of a handler, except that a
      malformed id makes a lookup throw a cast error, that the validators
      may refuse a write, and that the population query the create and the
      status route await after their write may fail.
    - The time zone of the server process and the validators of the Booking
      schema are parameters of the routes.  The Booking model's
      [checkConflict] and [updateStatus] and the upload middleware's
      [deleteFile] are not among the sources and are modelled from the
      specification. *)

From Stdlib Require Import ZArith List String Ascii Bool Lia DecimalString.
Import ListNotations.

Local Open Scope string_scope.
Local Open Scope Z_scope.

(* ------------------------------------------------------------------ *)
(** ** The JavaScript built-ins the handlers use *)

Module Js.

(** White space skipped by [trim] and [parseInt]: the characters of
    StrWhiteSpaceChar below 256 (TAB, LF, VT, FF, CR, SP, NBSP). *)
Definition isWhiteSpace (c : ascii) : bool :=
  match nat_of_ascii c with
  | 9%nat | 10%nat | 11%nat | 12%nat | 13%nat | 32%nat | 160%nat => true
  | _ => false
  end.

Fixpoint trimStart (s : string) : string :=
  match s with
  | String c r => if isWhiteSpace c then trimStart r else s
  | EmptyString => s
  end.

Fixpoint reverse (s acc : string) : string :=
  match s with
  | String c r => reverse r (String c acc)
  | EmptyString => acc
  end.

(** [s.trim()] *)
Definition trim (s : string) : string :=
  reverse (trimStart (reverse (trimStart s) "")) "".

(** [s.split(sep)[0]] for a one-character separator: the part of [s]
    before the first [sep], all of [s] when there is none. *)
Fixpoint splitHead (sep : ascii) (s : string) : string :=
  match s with
  | String c r => if Ascii.eqb c sep then "" else String c (splitHead sep r)
  | EmptyString => ""
  end.

(** Value of a character as a digit in bases up to 36. *)
Definition digitValue (c : ascii) : option Z :=
  let n := Z.of_nat (nat_of_ascii c) in
  if (48 <=? n) && (n <=? 57) then Some (n - 48)
  else if (97 <=? n) && (n <=? 122) then Some (n - 87)
  else if (65 <=? n) && (n <=? 90) then Some (n - 55)
  else None.

(** The longest prefix of [s] made of digits of [radix], as a number;
    [acc] is the value read so far, [None] before the first digit. *)
Fixpoint readDigits (radix : Z) (s : string) (acc : option Z) : option Z :=
  match s with
  | String c r =>
      match digitValue c with
      | Some d =>
          if d <? radix
          then readDigits radix r
                 (Some (match acc with Some a => a * radix + d | None => d end))
          else acc
      | None => acc
      end
  | EmptyString => acc
  end.

(** [parseInt(s)] without a radix argument; [None] is NaN. *)
Definition parseInt (s : string) : option Z :=
  let s1 := trimStart s in
  let '(sign, s2) :=
    match s1 with
    | String "-" r => (-1, r)
    | String "+" r => (1, r)
    | _ => (1, s1)
    end in
  let '(radix, s3) :=
    match s2 with
    | String "0" (String "x" r) => (16, r)
    | String "0" (String "X" r) => (16, r)
    | _ => (10, s2)
    end in
  option_map (Z.mul sign) (readDigits radix s3 None).

(** [String(n)] for an integer [n], as a template literal prints it. *)
Definition toString (n : Z) : string := NilZero.string_of_int (Z.to_int n).

(** [x < y] and [x > y] on numbers: false as soon as one side is NaN. *)
Definition lt (x y : option Z) : bool :=
  match x, y with Some a, Some b => a <? b | _, _ => false end.
Definition gt (x y : option Z) : bool := lt y x.

(** [d.getUTCHours()] *)
Definition getUTCHours (t : Z) : Z := (t / 3600000) mod 24.

End Js.

(* ------------------------------------------------------------------ *)
(** ** Data model *)

Inductive Status := pending | approved | rejected | cancelled | completed.

Definition Status_eqb (a b : Status) : bool :=
  match a, b with
  | pending, pending | approved, approved | rejected, rejected
  | cancelled, cancelled | completed, completed => true
  | _, _ => false
  end.

(** The status names as they travel in request bodies. *)
Definition statusOfString (s : string) : option Status :=
  if String.eqb s "pending" then Some pending
  else if String.eqb s "approved" then Some approved
  else if String.eqb s "rejected" then Some rejected
  else if String.eqb s "cancelled" then Some cancelled
  else if String.eqb s "completed" then Some completed
  else None.

(** What a statement of a handler can throw.  The catch blocks tell the
    errors apart by name: CastError, ValidationError, anything else. *)
Inductive Exn :=
| TypeError
| CastError
| ValidationError (messages : list string)
| DatabaseError.          (* an error of the database driver *)

(** An id as the client sends it. *)
Inductive IdField :=
| IdMissing               (* undefined or the empty string: falsy *)
| IdMalformed             (* a string that is no ObjectId *)
| IdOf (n : nat).

(** [Model.findById(id)] of the document mapper: a malformed id throws
    CastError, otherwise the first document with that id, or null. *)
Definition findDocument {A} (idOf : A -> nat) (coll : list A) (id : IdField)
  : Exn + option A :=
  match id with
  | IdMissing => inr None
  | IdMalformed => inl CastError
  | IdOf n => inr (find (fun d => Nat.eqb (idOf d) n) coll)
  end.

Module Room.
(** An absent [start] or [end] is the empty string: both are falsy. *)
Record OperatingHours := { start : string; end_ : string }.

Record t := {
  _id : nat;
  roomName : string;
  capacity : Z;
  isActive : bool;
  operatingHours : option OperatingHours
}.

Definition findById (coll : list t) (id : IdField) : Exn + option t :=
  findDocument _id coll id.
End Room.

Module Booking.
(** A stored booking document.  [notes], [contactPerson] and [equipment]
    are carried by the source but read by none of the booking rules; they
    are left out.  [statusNote] and [statusBy] are the latest audit
    annotation. *)
Record t := {
  _id : nat;
  userId : nat;
  roomId : nat;
  purpose : string;
  activityName : string;
  startTime : Z;
  endTime : Z;
  documentPath : option string;
  participantsCount : Z;
  status : Status;
  statusNote : string;
  statusBy : option nat
}.

(** The object literal [bookingData] of the create handler;
    [participantsCount] is [None] when [parseInt] gave NaN. *)
Record Data := {
  d_userId : nat;
  d_roomId : nat;
  d_purpose : string;
  d_activityName : string;
  d_startTime : Z;
  d_endTime : Z;
  d_documentPath : option string;
  d_participantsCount : option Z
}.

(** The object [updateData] of the update handler: a field is [None]
    while the handler has not assigned it. *)
Record Update := {
  u_activityName : option string;
  u_participantsCount : option (option Z);
  u_documentPath : option string;
  u_startTime : option Z;
  u_endTime : option Z
}.

Definition findById (coll : list t) (id : IdField) : Exn + option t :=
  findDocument _id coll id.

(** Modelled from the spec: the statuses [checkConflict] looks at, "whose
    status is not cancelled or rejected" (models/Booking.js is not among
    the sources). *)
Definition blocking (s : Status) : bool :=
  match s with
  | cancelled | rejected => false
  | _ => true
  end.

(** Modelled from the spec: "excluding the booking being updated (if
    any)", the optional last argument of [checkConflict]. *)
Definition excluded (exclude : option nat) (b : t) : bool :=
  match exclude with
  | Some x => Nat.eqb (_id b) x
  | None => false
  end.

(** Modelled from the spec: "existing.start < end AND existing.end >
    start", the overlap test of [checkConflict]. *)
Definition overlaps (b : t) (start end_ : Z) : bool :=
  (startTime b <? end_) && (endTime b >? start).

(** Modelled from the spec: the query of [checkConflict], the three tests
    above on the bookings of the given room. *)
Definition conflictsWith (room : nat) (start end_ : Z)
    (exclude : option nat) (b : t) : bool :=
  Nat.eqb (roomId b) room && blocking (status b)
  && negb (excluded exclude b) && overlaps b start end_.

(** Modelled from the spec: the static [checkConflict] of the Booking
    model (models/Booking.js), which is not among the sources.  "Returns
    the first conflicting booking (if any) whose status is not cancelled
    or rejected, for the given room, excluding the booking being updated
    (if any), where conflict means the two intervals overlap". *)
Definition checkConflict (coll : list t) (room : nat) (start end_ : Z)
    (exclude : option nat) : option t :=
  find (conflictsWith room start end_ exclude) coll.

(** Modelled from the spec: the method [updateStatus] of a booking
    document (models/Booking.js), not among the sources.  "A successful
    transition sets the new status and records the acting user id and
    optional note as the latest audit annotation". *)
Definition updateStatus (b : t) (s : Status) (note : string) (by_ : nat) : t :=
  {| _id := _id b; userId := userId b; roomId := roomId b;
     purpose := purpose b; activityName := activityName b;
     startTime := startTime b; endTime := endTime b;
     documentPath := documentPath b;
     participantsCount := participantsCount b;
     status := s; statusNote := note; statusBy := Some by_ |}.

(** [doc.save()]: the stored document with the same id is replaced. *)
Definition save (coll : list t) (b : t) : list t :=
  map (fun d => if Nat.eqb (_id d) (_id b) then b else d) coll.

(** A fresh id: one more than every id in the collection. *)
Definition newId (coll : list t) : nat :=
  S (fold_right (fun d m => Nat.max (_id d) m) 0%nat coll).

(** [Booking.create(data)].  The schema validators (models/Booking.js)
    are a parameter: [validate] lists the messages of the failed ones.
    NaN does not cast to a number.  A new document starts as pending and
    is appended to the collection. *)
Definition create (validate : Data -> list string) (coll : list t) (d : Data)
  : Exn + (t * list t) :=
  match d_participantsCount d, validate d with
  | Some n, [] =>
      let b := {| _id := newId coll; userId := d_userId d;
                  roomId := d_roomId d; purpose := d_purpose d;
                  activityName := d_activityName d;
                  startTime := d_startTime d; endTime := d_endTime d;
                  documentPath := d_documentPath d;
                  participantsCount := n;
                  status := pending; statusNote := ""; statusBy := None |} in
      inr (b, (coll ++ [b])%list)
  | Some _, msgs => inl (ValidationError msgs)
  | None, msgs =>
      inl (ValidationError ("Cast to Number failed at path participantsCount" :: msgs))
  end.

Definition orKeep {A} (new : option A) (old : A) : A :=
  match new with Some x => x | None => old end.

(** The document after [$set] of the assigned fields of [u]. *)
Definition applyUpdate (u : Update) (n : Z) (b : t) : t :=
  {| _id := _id b; userId := userId b; roomId := roomId b;
     purpose := purpose b;
     activityName := orKeep (u_activityName u) (activityName b);
     startTime := orKeep (u_startTime u) (startTime b);
     endTime := orKeep (u_endTime u) (endTime b);
     documentPath :=
       match u_documentPath u with Some p => Some p | None => documentPath b end;
     participantsCount := n;
     status := status b; statusNote := statusNote b; statusBy := statusBy b |}.

(** [Booking.findByIdAndUpdate(id, u, { new: true, runValidators: true })]:
    the update validators are a parameter like those of [create]; casting
    NaN to a number throws CastError; the result is the updated document, or
    null when there is none. *)
Definition findByIdAndUpdate (validate : Update -> list string)
    (coll : list t) (id : IdField) (u : Update)
  : Exn + (option t * list t) :=
  match findById coll id with
  | inl e => inl e
  | inr found =>
      match u_participantsCount u, validate u with
      | Some None, _ => inl CastError
      | _, (_ :: _) as msgs => inl (ValidationError msgs)
      | pc, [] =>
          match found with
          | None => inr (None, coll)
          | Some b =>
              let n := match pc with
                       | Some (Some n) => n
                       | _ => participantsCount b
                       end in
              let b' := applyUpdate u n b in
              inr (Some b', save coll b')
          end
      end
  end.

(** [Booking.findByIdAndDelete(id)] *)
Definition findByIdAndDelete (coll : list t) (id : IdField) : Exn + list t :=
  match findById coll id with
  | inl e => inl e
  | inr None => inr coll
  | inr (Some b) => inr (filter (fun d => negb (Nat.eqb (_id d) (_id b))) coll)
  end.
End Booking.

(** The world the handlers run in. *)
Record World := {
  bookings : list Booking.t;   (* the bookings collection, in natural order *)
  rooms : list Room.t;         (* the rooms collection *)
  uploads : list string        (* paths of the files in the upload directory *)
}.

(* ------------------------------------------------------------------ *)
(** ** Requests *)

(** A timestamp as the client sends it, by what [new Date(..)] makes of it. *)
Inductive DateField :=
| DateMissing             (* undefined or the empty string: falsy *)
| DateInvalid             (* parses to an Invalid Date *)
| DateAt (t : Z).

(** [participantsCount] as the client sends it.  The numbers are the
    integers a JavaScript number holds exactly (below 2^53 in magnitude):
    they print as decimal numerals and [parseInt] reads them back.  A form
    field is a text: empty, the decimal numeral of an integer, or a text
    that is no numeric literal.  Numeric literals of another form (a
    fraction, an exponent, a radix prefix, padding) are not represented. *)
Inductive CountField :=
| CountOmitted            (* undefined *)
| CountEmpty              (* the empty string *)
| CountNumber (n : Z)     (* a JSON number *)
| CountNumeral (n : Z)    (* a form field holding the decimal numeral of n *)
| CountText (t : string). (* a form field holding a text that is no numeric
                             literal, such as 20 orang or 20,5: as a number
                             it is NaN, [parseInt] reads its leading
                             integer *)

(** What the handler meets besides the body of the request: the
    authenticated caller, the clock, the file the upload middleware has
    already stored in the upload directory, and the error in which the
    population query the handler awaits after its write ends, if it does. *)
Record Context := {
  user : nat;                   (* req.user._id *)
  now : Z;                      (* new Date() *)
  file : option string;         (* req.file.path *)
  populateError : option Exn    (* what [await booking.populate(..)] throws *)
}.

Record CreateBody := {
  c_roomId : IdField;
  c_activityName : string;            (* empty when absent *)
  c_startTime : DateField;
  c_purpose : option string;
  c_endTime : DateField;
  c_participantsCount : CountField
}.

Record UpdateBody := {
  p_activityName : string;            (* empty when absent *)
  p_startTime : DateField;
  p_endTime : DateField;
  p_participantsCount : CountField
}.

Record StatusBody := {
  s_status : option string;
  s_adminNote : option string
}.

Definition truthy (s : string) : bool := negb (String.eqb s "").

Definition idTruthy (i : IdField) : bool :=
  match i with IdMissing => false | _ => true end.

Definition dateTruthy (d : DateField) : bool :=
  match d with DateMissing => false | _ => true end.

(** [new Date(d)] *)
Definition newDate (d : DateField) : option Z :=
  match d with DateAt t => Some t | _ => None end.

Definition countTruthy (c : CountField) : bool :=
  match c with
  | CountOmitted | CountEmpty => false
  | CountNumber n => negb (n =? 0)
  | CountNumeral _ => true
  | CountText t => truthy t
  end.

(** The count as the operand of a numeric comparison. *)
Definition countToNumber (c : CountField) : option Z :=
  match c with
  | CountOmitted => None
  | CountEmpty => Some 0
  | CountNumber n | CountNumeral n => Some n
  | CountText _ => None
  end.

(** [parseInt(c)] *)
Definition countParseInt (c : CountField) : option Z :=
  match c with
  | CountOmitted | CountEmpty => None
  | CountNumber n | CountNumeral n => Some n
  | CountText t => Js.parseInt t
  end.

(** The count inside a template literal. *)
Definition countToString (c : CountField) : string :=
  match c with
  | CountOmitted => "undefined"
  | CountEmpty => ""
  | CountNumber n | CountNumeral n => Js.toString n
  | CountText t => t
  end.

(* ------------------------------------------------------------------ *)
(** ** Responses *)

Record Conflict := {
  k_activityName : string;
  k_startTime : Z;
  k_endTime : Z;
  k_bookedBy : option nat   (* the user whose name the create handler prints *)
}.

(** The JSON body of a response and its status code.  [data] is the
    booking of the payload; the download URL the handlers add to it is
    left out. *)
Record Response := {
  code : Z;                       (* res.status(code) *)
  success : bool;
  message : string;
  conflict : option Conflict;
  data : option Booking.t
}.

Definition failure (c : Z) (m : string) : Response :=
  {| code := c; success := false; message := m; conflict := None; data := None |}.

Definition failureWith (c : Z) (m : string) (k : Conflict) : Response :=
  {| code := c; success := false; message := m; conflict := Some k; data := None |}.

Definition successWith (c : Z) (m : string) (d : option Booking.t) : Response :=
  {| code := c; success := true; message := m; conflict := None; data := d |}.

(* ------------------------------------------------------------------ *)
(** ** Control flow of a handler *)

Inductive Step (A : Type) :=
| Next (a : A)             (* fall through to the next statement *)
| Return (r : Response)    (* return res.status(..).json(..) *)
| Throw (e : Exn).

Arguments Next {A} a.
Arguments Return {A} r.
Arguments Throw {A} e.

Definition Handler (A : Type) : Type := World -> Step A * World.

Definition ret {A} (a : A) : Handler A := fun w => (Next a, w).

Definition bind {A B} (m : Handler A) (k : A -> Handler B) : Handler B :=
  fun w =>
    match m w with
    | (Next a, w') => k a w'
    | (Return r, w') => (Return r, w')
    | (Throw e, w') => (Throw e, w')
    end.

Definition respond {A} (r : Response) : Handler A := fun w => (Return r, w).
Definition throw {A} (e : Exn) : Handler A := fun w => (Throw e, w).

(** [if (c) return r;] *)
Definition rejectIf (c : bool) (r : Response) : Handler unit :=
  if c then respond r else ret tt.

(** [if (c) { m }] *)
Definition when (c : bool) (m : Handler unit) : Handler unit :=
  if c then m else ret tt.

(** A read of the collections that may throw. *)
Definition query {A} (q : World -> Exn + A) : Handler A :=
  fun w => match q w with inl e => (Throw e, w) | inr a => (Next a, w) end.

(** A write of the booking collection that may throw. *)
Definition command {A} (c : list Booking.t -> Exn + (A * list Booking.t))
  : Handler A :=
  fun w =>
    match c (bookings w) with
    | inl e => (Throw e, w)
    | inr (a, coll) =>
        (Next a, {| bookings := coll; rooms := rooms w; uploads := uploads w |})
    end.

(** Modelled from the spec: [deleteFile] of the upload middleware
    (middleware/upload.js), not among the sources: "removal of any attached
    document".  The callers log and drop its failures. *)
Definition deleteFile (path : string) : Handler unit :=
  fun w =>
    (Next tt,
     {| bookings := bookings w; rooms := rooms w;
        uploads := filter (fun p => negb (String.eqb p path)) (uploads w) |}).

Declare Scope handler_scope.
Delimit Scope handler_scope with handler.
Notation "x <- m ;; k" := (bind m (fun x => k))
  (at level 100, m at next level, right associativity) : handler_scope.
Notation "m ;;; k" := (bind m (fun _ => k))
  (at level 100, right associativity) : handler_scope.

(** [try { body } catch (error) { handler }]: the body of a route always
    ends in a response, so it never falls through. *)
Definition tryCatch (body : Handler Empty_set)
    (handler : Exn -> World -> Response * World) (w : World)
  : Response * World :=
  match body w with
  | (Next a, _) => match a with end
  | (Return r, w') => (r, w')
  | (Throw e, w') => handler e w'
  end.

(** [if (req.file) deleteFile(req.file.path)] of the catch blocks. *)
Definition dropUpload (ctx : Context) (w : World) : World :=
  match file ctx with
  | Some p => snd (deleteFile p w)
  | None => w
  end.

(** [await booking.populate([..])]: the document is filled in for the
    response only; the query may fail. *)
Definition populate (ctx : Context) : Handler unit :=
  match populateError ctx with
  | Some error => throw error
  | None => ret tt
  end.

(** [if (!doc) return r;] *)
Definition present {A} (found : option A) (r : Response) : Handler A :=
  match found with
  | Some a => ret a
  | None => respond r
  end.

(** [if (!room || !room.isActive) return res.status(404)...] *)
Definition activeRoom (found : option Room.t) : Handler Room.t :=
  match found with
  | Some room =>
      if Room.isActive room then ret room
      else respond (failure 404 "Ruangan tidak ditemukan atau tidak aktif")
  | None => respond (failure 404 "Ruangan tidak ditemukan atau tidak aktif")
  end.

Definition conflictOf (b : Booking.t) (bookedBy : option nat) : Conflict :=
  {| k_activityName := Booking.activityName b;
     k_startTime := Booking.startTime b;
     k_endTime := Booking.endTime b;
     k_bookedBy := bookedBy |}.

(** The configured bound of the operating hours, when it is truthy:
    [room.operatingHours && room.operatingHours.start]. *)
Definition configured (room : Room.t) (bound : Room.OperatingHours -> string)
  : option string :=
  match Room.operatingHours room with
  | Some oh => if truthy (bound oh) then Some (bound oh) else None
  | None => None
  end.

Definition hourOf (bound : option string) (default : Z) : option Z :=
  match bound with
  | Some s => Js.parseInt (Js.splitHead ":" s)
  | None => Some default
  end.

Definition roomStartHour (room : Room.t) : option Z :=
  hourOf (configured room Room.start) 8.
Definition roomEndHour (room : Room.t) : option Z :=
  hourOf (configured room Room.end_) 17.

Definition startTimeStr (room : Room.t) : string :=
  match configured room Room.start with Some s => s | None => "08:00" end.
Definition endTimeStr (room : Room.t) : string :=
  match configured room Room.end_ with Some s => s | None => "17:00" end.

(** The hour of an instant on a clock seven hours ahead of UTC. *)
Definition jakartaHour (t : Z) : Z := (Js.getUTCHours t + 7) mod 24.

Definition outsideHours (room : Room.t) (start end_ : Z) : bool :=
  Js.lt (Some (jakartaHour start)) (roomStartHour room)
  || Js.gt (Some (jakartaHour end_)) (roomEndHour room).

Definition closedResponse (room : Room.t) : Response :=
  failure 400
    ("Ruangan hanya beroperasi dari " ++ startTimeStr room ++ " - "
       ++ endTimeStr room)%string.

Definition capacityResponse (count : CountField) (room : Room.t) : Response :=
  failure 400
    ("Jumlah peserta (" ++ countToString count
       ++ ") melebihi kapasitas ruangan (" ++ Js.toString (Room.capacity room)
       ++ ")")%string.

Definition conflictResponse (b : Booking.t) (bookedBy : option nat) : Response :=
  failureWith 400 "Ruangan sudah dibooking pada waktu tersebut"
    (conflictOf b bookedBy).

Definition createdResponse (b : Booking.t) : Response :=
  successWith 201 "Booking berhasil diajukan. Menunggu persetujuan admin."
    (Some b).

(* ------------------------------------------------------------------ *)
(** ** The routes *)

Section Routes.

(** The time zone of the server process: the minutes its local clock is
    ahead of UTC at an instant. *)
Variable localOffset : Z -> Z.

(** The validators of the Booking schema (models/Booking.js, not among
    the sources), on create and on update. *)
Variable createValidators : Booking.Data -> list string.
Variable updateValidators : Booking.Update -> list string.

(** [d.toDateString()]: the calendar date on the server's local clock,
    as the number of days since the epoch.  The handlers only compare two
    such dates for equality. *)
Definition toDateString (t : Z) : Z := (t + localOffset t * 60000) / 86400000.

Local Open Scope handler_scope.

(** "Check working hours only for single-day bookings": the statement
    shared by the create and the update handler. *)
Definition checkWorkingHours (room : Room.t) (start end_ : Z) : Handler unit :=
  let isMultiDay := negb (toDateString start =? toDateString end_) in
  when (negb isMultiDay)
    (rejectIf (outsideHours room start end_) (closedResponse room)).

(** POST / *)
Definition postBooking (ctx : Context) (body : CreateBody)
  : World -> Response * World :=
  tryCatch
    (rejectIf (negb (idTruthy (c_roomId body))
               || negb (truthy (c_activityName body))
               || negb (dateTruthy (c_startTime body))
               || negb (dateTruthy (c_endTime body)))
       (failure 400
          "Room ID, nama kegiatan, waktu mulai, dan waktu selesai harus diisi") ;;;
     found <- query (fun w => Room.findById (rooms w) (c_roomId body)) ;;
     room <- activeRoom found ;;
     match newDate (c_startTime body), newDate (c_endTime body) with
     | Some bookingStartTime, Some bookingEndTime =>
         rejectIf (bookingEndTime <=? bookingStartTime)
           (failure 400 "Waktu selesai harus setelah waktu mulai") ;;;
         rejectIf (bookingStartTime <? now ctx)
           (failure 400
              "Tidak dapat membuat booking untuk waktu yang sudah lewat") ;;;
         conflictingBooking <-
           query (fun w =>
                    inr (Booking.checkConflict (bookings w) (Room._id room)
                           bookingStartTime bookingEndTime None)) ;;
         match conflictingBooking with
         | Some k => respond (conflictResponse k (Some (Booking.userId k)))
         | None =>
             rejectIf (countTruthy (c_participantsCount body)
                       && Js.gt (countToNumber (c_participantsCount body))
                            (Some (Room.capacity room)))
               (capacityResponse (c_participantsCount body) room) ;;;
             checkWorkingHours room bookingStartTime bookingEndTime ;;;
             purpose <- match c_purpose body with
                        | Some p => ret (Js.trim p)
                        | None => throw TypeError
                        end ;;
             let bookingData :=
               {| Booking.d_userId := user ctx;
                  Booking.d_roomId := Room._id room;
                  Booking.d_purpose := purpose;
                  Booking.d_activityName := Js.trim (c_activityName body);
                  Booking.d_startTime := bookingStartTime;
                  Booking.d_endTime := bookingEndTime;
                  Booking.d_documentPath := file ctx;
                  Booking.d_participantsCount :=
                    if countTruthy (c_participantsCount body)
                    then countParseInt (c_participantsCount body)
                    else Some 1 |} in
             booking <- command (fun coll =>
                           Booking.create createValidators coll bookingData) ;;
             populate ctx ;;;
             respond (createdResponse booking)
         end
     | _, _ => respond (failure 400 "Format tanggal tidak valid")
     end)
    (fun error w =>
       let w' := dropUpload ctx w in
       match error with
       | ValidationError messages =>
           (failure 400 (String.concat ", " messages), w')
       | _ => (failure 500 "Server error saat membuat booking", w')
       end).

(** PUT /:id *)
Definition putBooking (ctx : Context) (id : IdField) (body : UpdateBody)
  : World -> Response * World :=
  tryCatch
    (found <- query (fun w => Booking.findById (bookings w) id) ;;
     booking <- present found (failure 404 "Booking tidak ditemukan") ;;
     rejectIf (negb (Nat.eqb (Booking.userId booking) (user ctx)))
       (failure 403 "Tidak memiliki akses untuk mengedit booking ini") ;;;
     rejectIf (negb (Status_eqb (Booking.status booking) pending))
       (failure 400 "Hanya booking dengan status pending yang dapat diedit") ;;;
     rejectIf (Booking.startTime booking <? now ctx)
       (failure 400 "Tidak dapat mengedit booking yang sudah lewat waktunya") ;;;
     foundRoom <- query (fun w =>
                    Room.findById (rooms w) (IdOf (Booking.roomId booking))) ;;
     room <- activeRoom foundRoom ;;
     let activityName :=
       if truthy (p_activityName body)
       then Some (Js.trim (p_activityName body)) else None in
     let participantsCount :=
       if countTruthy (p_participantsCount body)
       then Some (countParseInt (p_participantsCount body)) else None in
     when (match file ctx with Some _ => true | None => false end)
       (match Booking.documentPath booking with
        | Some old => deleteFile old
        | None => ret tt
        end) ;;;
     times <-
       (if dateTruthy (p_startTime body) || dateTruthy (p_endTime body)
        then
          let newStartTime :=
            if dateTruthy (p_startTime body) then newDate (p_startTime body)
            else Some (Booking.startTime booking) in
          let newEndTime :=
            if dateTruthy (p_endTime body) then newDate (p_endTime body)
            else Some (Booking.endTime booking) in
          match newStartTime, newEndTime with
          | Some newStart, Some newEnd =>
              rejectIf (newEnd <=? newStart)
                (failure 400 "Waktu selesai harus setelah waktu mulai") ;;;
              rejectIf (newStart <? now ctx)
                (failure 400 "Tidak dapat mengatur waktu untuk masa lalu") ;;;
              checkWorkingHours room newStart newEnd ;;;
              conflictingBooking <-
                query (fun w =>
                         inr (Booking.checkConflict (bookings w)
                                (Booking.roomId booking) newStart newEnd
                                (Some (Booking._id booking)))) ;;
              match conflictingBooking with
              | Some k => respond (conflictResponse k None)
              | None => ret (Some newStart, Some newEnd)
              end
          | _, _ => respond (failure 400 "Format tanggal tidak valid")
          end
        else ret (None, None)) ;;
     let updateData :=
       {| Booking.u_activityName := activityName;
          Booking.u_participantsCount := participantsCount;
          Booking.u_documentPath := file ctx;
          Booking.u_startTime := fst times;
          Booking.u_endTime := snd times |} in
     updatedBooking <- command (fun coll =>
                         Booking.findByIdAndUpdate updateValidators coll id
                           updateData) ;;
     match updatedBooking with
     | Some b => respond (successWith 200 "Booking berhasil diupdate" (Some b))
     | None => throw TypeError
     end)
    (fun error w =>
       let w' := dropUpload ctx w in
       match error with
       | CastError => (failure 404 "Booking tidak ditemukan", w')
       | ValidationError messages =>
           (failure 400 (String.concat ", " messages), w')
       | _ => (failure 500 "Server error saat mengupdate booking", w')
       end).

(** PATCH /:id/cancel *)
Definition patchCancel (ctx : Context) (id : IdField)
  : World -> Response * World :=
  tryCatch
    (found <- query (fun w => Booking.findById (bookings w) id) ;;
     booking <- present found (failure 404 "Booking tidak ditemukan") ;;
     rejectIf (negb (Nat.eqb (Booking.userId booking) (user ctx)))
       (failure 403 "Tidak memiliki akses untuk membatalkan booking ini") ;;;
     rejectIf (Status_eqb (Booking.status booking) cancelled
               || Status_eqb (Booking.status booking) rejected)
       (failure 400 "Booking sudah dibatalkan atau ditolak") ;;;
     rejectIf (Booking.startTime booking <? now ctx)
       (failure 400 "Tidak dapat membatalkan booking yang sudah dimulai") ;;;
     let booking' :=
       Booking.updateStatus booking cancelled "Dibatalkan oleh user"
         (user ctx) in
     command (fun coll => inr (tt, Booking.save coll booking')) ;;;
     respond (successWith 200 "Booking berhasil dibatalkan" (Some booking')))
    (fun _ w => (failure 500 "Server error saat membatalkan booking", w)).

(** The statements both delete handlers end with: delete the attached
    document, delete the booking, answer. *)
Definition removeBooking (booking : Booking.t) (id : IdField) (msg : string)
  : Handler Empty_set :=
  match Booking.documentPath booking with
  | Some path => deleteFile path
  | None => ret tt
  end ;;;
  command (fun coll =>
             match Booking.findByIdAndDelete coll id with
             | inl e => inl e
             | inr coll' => inr (tt, coll')
             end) ;;;
  respond (successWith 200 msg None).

(** DELETE /:id *)
Definition deleteBooking (ctx : Context) (id : IdField)
  : World -> Response * World :=
  tryCatch
    (found <- query (fun w => Booking.findById (bookings w) id) ;;
     booking <- present found (failure 404 "Booking tidak ditemukan") ;;
     rejectIf (negb (Nat.eqb (Booking.userId booking) (user ctx)))
       (failure 403 "Tidak memiliki akses untuk menghapus booking ini") ;;;
     rejectIf (negb (existsb (Status_eqb (Booking.status booking))
                       [cancelled; rejected; completed]))
       (failure 400
          "Hanya booking yang dibatalkan, ditolak, atau sudah selesai yang dapat dihapus") ;;;
     removeBooking booking id "Booking berhasil dihapus")
    (fun _ w => (failure 500 "Server error saat menghapus booking", w)).

(** DELETE /admin/:id, behind [authorize('admin')] *)
Definition deleteAdminBooking (ctx : Context) (id : IdField)
  : World -> Response * World :=
  tryCatch
    (found <- query (fun w => Booking.findById (bookings w) id) ;;
     booking <- present found (failure 404 "Booking tidak ditemukan") ;;
     removeBooking booking id "Booking berhasil dihapus oleh admin")
    (fun _ w => (failure 500 "Server error saat menghapus booking", w)).

Definition actionMessage (s : Status) : string :=
  match s with
  | approved => "disetujui"
  | rejected => "ditolak"
  | completed => "ditandai selesai"
  | _ => "diupdate"
  end.

(** PATCH /:id/status, behind [authorize('admin')].  The notification
    mail sent after the update is best effort and changes nothing here. *)
Definition patchStatus (ctx : Context) (id : IdField) (body : StatusBody)
  : World -> Response * World :=
  tryCatch
    (status <- match s_status body with
               | Some s =>
                   if truthy s then ret s
                   else respond (failure 400 "Status harus disediakan")
               | None => respond (failure 400 "Status harus disediakan")
               end ;;
     rejectIf (negb (existsb (String.eqb status)
                       ["approved"; "rejected"; "completed"]%string))
       (failure 400 "Status harus berupa approved, rejected, atau completed") ;;;
     found <- query (fun w => Booking.findById (bookings w) id) ;;
     booking <- present found (failure 404 "Booking tidak ditemukan") ;;
     (if String.eqb status "completed"
         && negb (Status_eqb (Booking.status booking) approved)
      then respond
             (failure 400
                "Hanya booking dengan status approved yang dapat ditandai selesai")
      else if (String.eqb status "approved" || String.eqb status "rejected")
              && negb (Status_eqb (Booking.status booking) pending)
      then respond
             (failure 400
                "Hanya booking dengan status pending yang dapat disetujui atau ditolak")
      else ret tt) ;;;
     when (String.eqb status "approved")
       (conflictingBooking <-
          query (fun w =>
                   inr (Booking.checkConflict (bookings w)
                          (Booking.roomId booking) (Booking.startTime booking)
                          (Booking.endTime booking)
                          (Some (Booking._id booking)))) ;;
        match conflictingBooking with
        | Some k =>
            respond
              (failureWith 400
                 "Tidak dapat menyetujui booking karena ada konflik jadwal"
                 (conflictOf k None))
        | None => ret tt
        end) ;;;
     target <- match statusOfString status with
               | Some s => ret s
               | None => throw (ValidationError ["status is not a valid enum value"]%string)
               end ;;
     let adminNote :=
       match s_adminNote body with Some n => n | None => ""%string end in
     let booking' :=
       Booking.updateStatus booking target adminNote (user ctx) in
     command (fun coll => inr (tt, Booking.save coll booking')) ;;;
     populate ctx ;;;
     respond
       (successWith 200 ("Booking berhasil " ++ actionMessage target)%string
          (Some booking')))
    (fun error w =>
       match error with
       | CastError => (failure 404 "Booking tidak ditemukan", w)
       | _ => (failure 500 "Server error saat mengupdate status booking", w)
       end).

End Routes.

(* ------------------------------------------------------------------ *)
(** ** The vocabulary of the statements *)

(** The conflict condition in the words of the specification: the stored
    booking [b] is on the room, is neither cancelled nor rejected, is not
    the booking being updated, and its interval overlaps [start, end_). *)
Definition Conflicting (room : nat) (start end_ : Z) (exclude : option nat)
    (b : Booking.t) : Prop :=
  Booking.roomId b = room
  /\ Booking.status b <> cancelled /\ Booking.status b <> rejected
  /\ exclude <> Some (Booking._id b)
  /\ Booking.startTime b < end_ /\ Booking.endTime b > start.

(** The transitions an admin can make, in the words of the specification. *)
Definition allowedTransition (from to : Status) : Prop :=
  (to = completed /\ from = approved)
  \/ ((to = approved \/ to = rejected) /\ from = pending).

(** The message of the refusal: it names the status the transition starts
    from, whatever the current status is. *)
Definition refusal (to : Status) : string :=
  match to with
  | completed => "Hanya booking dengan status approved yang dapat ditandai selesai"
  | _ => "Hanya booking dengan status pending yang dapat disetujui atau ditolak"
  end.

(** The same table as a test. *)
Definition allowedb (from to : Status) : bool :=
  match to, from with
  | completed, approved | approved, pending | rejected, pending => true
  | _, _ => false
  end.

(** The request names an active room, an activity and two valid instants,
    the end after the start and the start not in the past: it passes every
    check made before the conflict detector is asked. *)
Definition Screened (ctx : Context) (body : CreateBody) (w : World)
    (room : Room.t) (start end_ : Z) : Prop :=
  truthy (c_activityName body) = true
  /\ Room.findById (rooms w) (c_roomId body) = inr (Some room)
  /\ Room.isActive room = true
  /\ c_startTime body = DateAt start /\ c_endTime body = DateAt end_
  /\ start < end_ /\ now ctx <= start.

(** The [bookingData] of a screened request. *)
Definition bookingDataOf (ctx : Context) (body : CreateBody) (room : Room.t)
    (start end_ : Z) (purpose : string) : Booking.Data :=
  {| Booking.d_userId := user ctx;
     Booking.d_roomId := Room._id room;
     Booking.d_purpose := Js.trim purpose;
     Booking.d_activityName := Js.trim (c_activityName body);
     Booking.d_startTime := start;
     Booking.d_endTime := end_;
     Booking.d_documentPath := file ctx;
     Booking.d_participantsCount :=
       if countTruthy (c_participantsCount body)
       then countParseInt (c_participantsCount body)
       else Some 1 |}.

(** The answers of the checks made before the conflict detector is
    asked; the last one is the catch block's, for a room id that is no
    ObjectId. *)
Definition screeningFailures : list Response :=
  [ failure 400
      "Room ID, nama kegiatan, waktu mulai, dan waktu selesai harus diisi";
    failure 404 "Ruangan tidak ditemukan atau tidak aktif";
    failure 400 "Format tanggal tidak valid";
    failure 400 "Waktu selesai harus setelah waktu mulai";
    failure 400 "Tidak dapat membuat booking untuk waktu yang sudah lewat";
    failure 500 "Server error saat membuat booking" ].

(** The request asks for more seats than the room has. *)
Definition exceedsCapacity (body : CreateBody) (room : Room.t) : bool :=
  countTruthy (c_participantsCount body)
  && Js.gt (countToNumber (c_participantsCount body)) (Some (Room.capacity room)).

(** What the create route does once the hours are settled. *)
Definition store (createValidators : Booking.Data -> list string)
    (ctx : Context) (body : CreateBody) (w : World)
    (room : Room.t) (start end_ : Z) : Response * World :=
  match c_purpose body with
  | None =>
      (failure 500 "Server error saat membuat booking", dropUpload ctx w)
  | Some p =>
      match Booking.create createValidators (bookings w)
              (bookingDataOf ctx body room start end_ p) with
      | inl (ValidationError messages) =>
          (failure 400 (String.concat ", " messages), dropUpload ctx w)
      | inl _ =>
          (failure 500 "Server error saat membuat booking", dropUpload ctx w)
      | inr (b, coll) =>
          let w' := {| bookings := coll; rooms := rooms w;
                       uploads := uploads w |} in
          match populateError ctx with
          | Some (ValidationError messages) =>
              (failure 400 (String.concat ", " messages), dropUpload ctx w')
          | Some _ =>
              (failure 500 "Server error saat membuat booking",
               dropUpload ctx w')
          | None => (createdResponse b, w')
          end
      end
  end.

(** The calendar date of an instant on a clock seven hours ahead of UTC,
    as the number of days since the epoch. *)
Definition jakartaDate (t : Z) : Z := (t + 7 * 3600000) / 86400000.

(** The world after booking [b] and its document are removed. *)
Definition without (b : Booking.t) (w : World) : World :=
  {| bookings :=
       filter (fun d => negb (Nat.eqb (Booking._id d) (Booking._id b)))
         (bookings w);
     rooms := rooms w;
     uploads :=
       match Booking.documentPath b with
       | Some path => filter (fun p => negb (String.eqb p path)) (uploads w)
       | None => uploads w
       end |}.

Definition terminal (s : Status) : bool :=
  existsb (Status_eqb s) [cancelled; rejected; completed].

(** Booking [b], found under [id], and its document are gone from [w]. *)
Definition Gone (id : IdField) (b : Booking.t) (w : World) : Prop :=
  Booking.findById (bookings w) id = inr None
  /\ forall path, Booking.documentPath b = Some path -> ~ In path (uploads w).

(** An update that only sets the participant count to the number [n]. *)
Definition countOnly (n : Z) : UpdateBody :=
  {| p_activityName := ""; p_startTime := DateMissing;
     p_endTime := DateMissing; p_participantsCount := CountNumber n |}.

Definition countUpdate (n : Z) : Booking.Update :=
  {| Booking.u_activityName := None;
     Booking.u_participantsCount := Some (Some n);
     Booking.u_documentPath := None;
     Booking.u_startTime := None; Booking.u_endTime := None |}.

(* ------------------------------------------------------------------ *)
(** ** Sample data for concrete runs *)

Module Sample.

Definition hour : Z := 3600000.
Definition day : Z := 86400000.

(** 2030-03-27T00:00:00Z *)
Definition midnight : Z := 22000 * day.

(** A server on UTC, a server on Jakarta time. *)
Definition utc (_ : Z) : Z := 0.
Definition jakarta (_ : Z) : Z := 420.

(** Modelled from the spec: the Booking schema (models/Booking.js) is not
    among the sources; the data model asks for a positive
    [participantsCount] and an [endTime] after the [startTime]. *)
Definition createValidators (d : Booking.Data) : list string :=
  ((match Booking.d_participantsCount d with
    | Some n => if n <? 1 then ["participantsCount must be positive"] else []
    | None => []
    end)
   ++ (if Booking.d_endTime d <=? Booking.d_startTime d
       then ["endTime must be after startTime"] else []))%list.

Definition updateValidators (u : Booking.Update) : list string :=
  match Booking.u_participantsCount u with
  | Some (Some n) => if n <? 1 then ["participantsCount must be positive"] else []
  | _ => []
  end.

(** A room for ten people with the default hours. *)
Definition hall : Room.t :=
  {| Room._id := 1; Room.roomName := "Aula"; Room.capacity := 10;
     Room.isActive := true;
     Room.operatingHours :=
       Some {| Room.start := "08:00"; Room.end_ := "17:00" |} |}.

(** A booking of [hall] by user 7 from hour [from] to hour [to] (UTC) of
    the sample day. *)
Definition booking (id : nat) (from to : Z) (st : Status)
    (doc : option string) : Booking.t :=
  {| Booking._id := id; Booking.userId := 7; Booking.roomId := 1;
     Booking.purpose := "Rapat koordinasi"; Booking.activityName := "Rapat";
     Booking.startTime := midnight + from * hour;
     Booking.endTime := midnight + to * hour;
     Booking.documentPath := doc; Booking.participantsCount := 5;
     Booking.status := st; Booking.statusNote := ""; Booking.statusBy := None |}.

Definition world (bs : list Booking.t) (files : list string) : World :=
  {| bookings := bs; rooms := [hall]; uploads := files |}.

(** User [u] calling a day before the sample day, with upload [f]. *)
Definition caller (u : nat) (f : option string) : Context :=
  {| user := u; now := midnight - day; file := f; populateError := None |}.

Definition setStatus (s : string) : StatusBody :=
  {| s_status := Some s; s_adminNote := None |}.

End Sample.

(* ------------------------------------------------------------------ *)
(** ** The read route and the router *)

(** GET /:id; [role] is [req.user.role].  The 200 response has no message:
    the empty string stands for the absent field. *)
Definition getBooking (ctx : Context) (role : string) (id : IdField)
  : World -> Response * World :=
  tryCatch
    (found <- query (fun w => Booking.findById (bookings w) id) ;;
     booking <- present found (failure 404 "Booking tidak ditemukan") ;;
     rejectIf (negb (Nat.eqb (Booking.userId booking) (user ctx))
               && negb (String.eqb role "admin"))
       (failure 403 "Tidak memiliki akses ke booking ini") ;;;
     respond (successWith 200 "" (Some booking)))%handler
    (fun error w =>
       match error with
       | CastError => (failure 404 "Booking tidak ditemukan", w)
       | _ => (failure 500 "Server error saat mengambil data booking", w)
       end).

(** The requests the router dispatches on, one per route embedded here. *)
Inductive Request :=
| PostBooking (body : CreateBody)
| GetBooking (role : string) (id : IdField)
| PutBooking (id : IdField) (body : UpdateBody)
| PatchCancel (id : IdField)
| DeleteBooking (id : IdField)
| PatchStatus (id : IdField) (body : StatusBody)
| DeleteAdminBooking (id : IdField).

(** The router: each request goes to the handler registered for it. *)
Definition serve (localOffset : Z -> Z)
    (createValidators : Booking.Data -> list string)
    (updateValidators : Booking.Update -> list string)
    (ctx : Context) (req : Request) : World -> Response * World :=
  match req with
  | PostBooking body => postBooking localOffset createValidators ctx body
  | GetBooking role id => getBooking ctx role id
  | PutBooking id body => putBooking localOffset updateValidators ctx id body
  | PatchCancel id => patchCancel ctx id
  | DeleteBooking id => deleteBooking ctx id
  | PatchStatus id body => patchStatus ctx id body
  | DeleteAdminBooking id => deleteAdminBooking ctx id
  end.

(** One step in the life of the booking collection, by the request that
    makes it: [Effect ctx old req new].  A request leaves the collection as
    it is, or
    - a create request appends one booking, pending and the caller's;
    - an update request replaces the booking found under its id, which is
      the caller's, pending and not started, by that booking with some of
      its activity name, interval, document and participant count set;
    - a cancel request replaces the booking found under its id, which is
      the caller's, not started and pending, approved or completed, by
      what [updateStatus] makes of it for cancelled;
    - a status request replaces the booking found under its id by what
      [updateStatus] makes of it for the target, along a transition of the
      table;
    - a delete request removes the booking found under its id: the
      caller's, in a terminal status, on the owner's route; any booking on
      the admin's route. *)
Inductive Effect (ctx : Context) (old : list Booking.t)
  : Request -> list Booking.t -> Prop :=
| Unchanged req : Effect ctx old req old
| Created body b :
    Booking.status b = pending ->
    Booking.userId b = user ctx ->
    Effect ctx old (PostBooking body) (old ++ [b])%list
| Edited id body b u n :
    Booking.findById old id = inr (Some b) ->
    Booking.userId b = user ctx ->
    Booking.status b = pending ->
    now ctx <= Booking.startTime b ->
    Effect ctx old (PutBooking id body)
      (Booking.save old (Booking.applyUpdate u n b))
| Cancelled id b :
    Booking.findById old id = inr (Some b) ->
    Booking.userId b = user ctx ->
    In (Booking.status b) [pending; approved; completed] ->
    now ctx <= Booking.startTime b ->
    Effect ctx old (PatchCancel id)
      (Booking.save old
         (Booking.updateStatus b cancelled "Dibatalkan oleh user" (user ctx)))
| Decided id body b target note :
    Booking.findById old id = inr (Some b) ->
    allowedTransition (Booking.status b) target ->
    Effect ctx old (PatchStatus id body)
      (Booking.save old (Booking.updateStatus b target note (user ctx)))
| Deleted id b :
    Booking.findById old id = inr (Some b) ->
    Booking.userId b = user ctx ->
    terminal (Booking.status b) = true ->
    Effect ctx old (DeleteBooking id)
      (filter (fun d => negb (Nat.eqb (Booking._id d) (Booking._id b))) old)
| DeletedByAdmin id b :
    Booking.findById old id = inr (Some b) ->
    Effect ctx old (DeleteAdminBooking id)
      (filter (fun d => negb (Nat.eqb (Booking._id d) (Booking._id b))) old).

(** What every request keeps to: the rooms are as in [w], no file is new,
    a failure leaves the bookings as they were unless the population query
    failed, and the bookings change by one step. *)
Definition Lawful (ctx : Context) (req : Request) (w : World)
    (result : Response * World) : Prop :=
  rooms (snd result) = rooms w
  /\ incl (uploads (snd result)) (uploads w)
  /\ (success (fst result) = false -> populateError ctx = None ->
      bookings (snd result) = bookings w)
  /\ Effect ctx (bookings w) req (bookings (snd result)).

(* ------------------------------------------------------------------ *)
(** ** The steps of the update route *)

(** The world once the old document has made way for the new upload:
    [if (req.file) { if (booking.documentPath) deleteFile(..) }]. *)
Definition afterReplacing (ctx : Context) (b : Booking.t) (w : World) : World :=
  match file ctx, Booking.documentPath b with
  | Some _, Some old => snd (deleteFile old w)
  | _, _ => w
  end.

(** The object [updateData] for a body and the new interval, if any. *)
Definition updateDataOf (ctx : Context) (body : UpdateBody)
    (times : option Z * option Z) : Booking.Update :=
  {| Booking.u_activityName :=
       if truthy (p_activityName body)
       then Some (Js.trim (p_activityName body)) else None;
     Booking.u_participantsCount :=
       if countTruthy (p_participantsCount body)
       then Some (countParseInt (p_participantsCount body)) else None;
     Booking.u_documentPath := file ctx;
     Booking.u_startTime := fst times;
     Booking.u_endTime := snd times |}.

(** The end of the update route: the write and the answer, or the catch
    block. *)
Definition writeUpdate (updateValidators : Booking.Update -> list string)
    (ctx : Context) (id : IdField) (u : Booking.Update) (w : World)
  : Response * World :=
  match Booking.findByIdAndUpdate updateValidators (bookings w) id u with
  | inl CastError => (failure 404 "Booking tidak ditemukan", dropUpload ctx w)
  | inl (ValidationError messages) =>
      (failure 400 (String.concat ", " messages), dropUpload ctx w)
  | inl _ =>
      (failure 500 "Server error saat mengupdate booking", dropUpload ctx w)
  | inr (Some b', coll) =>
      (successWith 200 "Booking berhasil diupdate" (Some b'),
       {| bookings := coll; rooms := rooms w; uploads := uploads w |})
  | inr (None, coll) =>
      (failure 500 "Server error saat mengupdate booking",
       dropUpload ctx
         {| bookings := coll; rooms := rooms w; uploads := uploads w |})
  end.

(** [startTime ? new Date(startTime) : booking.startTime] *)
Definition newTime (field : DateField) (old : Z) : option Z :=
  if dateTruthy field then newDate field else Some old.

(** The update route from the point where the booking is known to be the
    caller's, pending and not started, in the active room [room]. *)
Definition editBooking (localOffset : Z -> Z)
    (updateValidators : Booking.Update -> list string)
    (ctx : Context) (id : IdField) (body : UpdateBody) (b : Booking.t)
    (room : Room.t) (w : World) : Response * World :=
  let w1 := afterReplacing ctx b w in
  if dateTruthy (p_startTime body) || dateTruthy (p_endTime body)
  then
    match newTime (p_startTime body) (Booking.startTime b),
          newTime (p_endTime body) (Booking.endTime b) with
    | Some newStart, Some newEnd =>
        if newEnd <=? newStart
        then (failure 400 "Waktu selesai harus setelah waktu mulai", w1)
        else if newStart <? now ctx
        then (failure 400 "Tidak dapat mengatur waktu untuk masa lalu", w1)
        else if (toDateString localOffset newStart
                 =? toDateString localOffset newEnd)
                && outsideHours room newStart newEnd
        then (closedResponse room, w1)
        else
          match Booking.checkConflict (bookings w) (Booking.roomId b)
                  newStart newEnd (Some (Booking._id b)) with
          | Some k => (conflictResponse k None, w1)
          | None =>
              writeUpdate updateValidators ctx id
                (updateDataOf ctx body (Some newStart, Some newEnd)) w1
          end
    | _, _ => (failure 400 "Format tanggal tidak valid", w1)
    end
  else writeUpdate updateValidators ctx id (updateDataOf ctx body (None, None)) w1.

(** The booking is the caller's, pending and not started, and its room is
    found and active: the request passes the guards of the update route. *)
Definition Editable (ctx : Context) (id : IdField) (w : World)
    (b : Booking.t) (room : Room.t) : Prop :=
  Booking.findById (bookings w) id = inr (Some b)
  /\ Booking.userId b = user ctx
  /\ Booking.status b = pending
  /\ now ctx <= Booking.startTime b
  /\ Room.findById (rooms w) (IdOf (Booking.roomId b)) = inr (Some room)
  /\ Room.isActive room = true.

(* ------------------------------------------------------------------ *)
(** ** The statistics summary *)

(** One row of the [$group] stage of the statistics route: a status and
    the number of bookings of the period that have it. *)
Definition StatRow : Type := (Status * Z)%type.

(** The object [statusCounts]: its five initial keys, and the key
    [completed], which only an assignment creates. *)
Record StatusCounts := {
  n_total : Z;
  n_pending : Z;
  n_approved : Z;
  n_rejected : Z;
  n_cancelled : Z;
  n_completed : option Z
}.

Definition noCounts : StatusCounts :=
  {| n_total := 0; n_pending := 0; n_approved := 0; n_rejected := 0;
     n_cancelled := 0; n_completed := None |}.

(** [statusCounts[stat._id] = stat.count; statusCounts.total += stat.count] *)
Definition countRow (c : StatusCounts) (row : StatRow) : StatusCounts :=
  let '(s, n) := row in
  {| n_total := n_total c + n;
     n_pending := match s with pending => n | _ => n_pending c end;
     n_approved := match s with approved => n | _ => n_approved c end;
     n_rejected := match s with rejected => n | _ => n_rejected c end;
     n_cancelled := match s with cancelled => n | _ => n_cancelled c end;
     n_completed := match s with completed => Some n | _ => n_completed c end |}.

(** [statusCounts[s]]: the value under the key of status [s], if the
    object has the key. *)
Definition countOf (s : Status) (c : StatusCounts) : option Z :=
  match s with
  | pending => Some (n_pending c)
  | approved => Some (n_approved c)
  | rejected => Some (n_rejected c)
  | cancelled => Some (n_cancelled c)
  | completed => n_completed c
  end.

(** [statsResult.forEach(...)] from the initial object. *)
Definition countRows (rows : list StatRow) : StatusCounts :=
  fold_left countRow rows noCounts.

(** The counts of the response's [summary]: total, pending, approved,
    rejected, cancelled.  The approval rate, a formatted fraction, is left
    out. *)
Definition summary (rows : list StatRow) : Z * Z * Z * Z * Z :=
  let c := countRows rows in
  (n_total c, n_pending c, n_approved c, n_rejected c, n_cancelled c).

(** The number of bookings of [coll] with status [s]. *)
Definition having (s : Status) (coll : list Booking.t) : Z :=
  Z.of_nat (List.length (filter (fun b => Status_eqb (Booking.status b) s) coll)).

(** [rows] is what grouping [coll] by status gives, in any order: one row
    for each status that occurs, with its count. *)
Definition GroupedBy (coll : list Booking.t) (rows : list StatRow) : Prop :=
  NoDup (map fst rows)
  /\ (forall s n, In (s, n) rows -> n = having s coll /\ 0 < n)
  /\ (forall s, 0 < having s coll -> In (s, having s coll) rows).

(* ------------------------------------------------------------------ *)
(** ** The headers of a download *)

Module Download.

(** [c.toLowerCase()] for a character below 256: the letters A-Z and the
    capital letters of Latin-1 (192-222 but the multiplication sign). *)
Definition lower (c : ascii) : ascii :=
  let n := nat_of_ascii c in
  if (Nat.leb 65 n && Nat.leb n 90
      || Nat.leb 192 n && Nat.leb n 222 && negb (Nat.eqb n 215))%bool
  then ascii_of_nat (n + 32) else c.

Fixpoint toLowerCase (s : string) : string :=
  match s with
  | String c r => String (lower c) (toLowerCase r)
  | EmptyString => EmptyString
  end.

(** [s.split('.').pop()]: the part of [s] after its last dot, all of [s]
    when it has none.  [acc] is the segment read so far, reversed. *)
Fixpoint lastSegment (s acc : string) : string :=
  match s with
  | String c r =>
      if Ascii.eqb c "." then lastSegment r "" else lastSegment r (String c acc)
  | EmptyString => Js.reverse acc ""
  end.

Definition extension (filename : string) : string :=
  toLowerCase (lastSegment filename "").

(** The [switch (ext)] of the route: content type and disposition. *)
Definition kind (ext : string) : string * string :=
  if String.eqb ext "pdf" then ("application/pdf", "inline")
  else if String.eqb ext "jpg" then ("image/jpeg", "inline")
  else if String.eqb ext "jpeg" then ("image/jpeg", "inline")
  else if String.eqb ext "png" then ("image/png", "inline")
  else if String.eqb ext "doc" then ("application/msword", "attachment")
  else if String.eqb ext "docx"
  then ("application/vnd.openxmlformats-officedocument.wordprocessingml.document",
        "attachment")
  else ("application/octet-stream", "attachment").

(** A character [res.setHeader] accepts in a header value: TAB, and the
    characters from space on except DEL.  A file name is the string of its
    characters, each below 256. *)
Definition headerChar (c : ascii) : bool :=
  let n := nat_of_ascii c in
  (Nat.eqb n 9 || Nat.leb 32 n) && negb (Nat.eqb n 127).

Fixpoint validValue (s : string) : bool :=
  match s with
  | String c r => headerChar c && validValue r
  | EmptyString => true
  end.

(** The two headers the route sets for a file that exists: Content-Type
    and Content-Disposition.  The quote of the template is character 34.
    [None] when [setHeader] throws on the second value: the route has no
    [try], the error middleware answers 500. *)
Definition headers (filename : string) : option (string * string) :=
  let '(contentType, disposition) := kind (extension filename) in
  let quote := String (ascii_of_nat 34) "" in
  let value :=
    (disposition ++ "; filename=" ++ quote ++ filename ++ quote)%string in
  if validValue value then Some (contentType, value) else None.

End Download.

(* ------------------------------------------------------------------ *)
(** ** Basic facts *)

Lemma Status_eqb_eq (a b : Status) : Status_eqb a b = true <-> a = b.
Proof. destruct a, b; simpl; split; congruence. Qed.

Lemma Status_eqb_neq (a b : Status) : Status_eqb a b = false <-> a <> b.
Proof. destruct a, b; simpl; split; congruence. Qed.

Lemma blocking_iff (s : Status) :
  Booking.blocking s = true <-> s <> cancelled /\ s <> rejected.
Proof.
  destruct s; simpl; split; intros H; try (split; congruence);
    try reflexivity; destruct H; congruence.
Qed.

Lemma excluded_iff (exclude : option nat) (b : Booking.t) :
  Booking.excluded exclude b = false <-> exclude <> Some (Booking._id b).
Proof.
  unfold Booking.excluded. destruct exclude as [x|].
  - rewrite Nat.eqb_neq. split; intros H; congruence.
  - split; intros; congruence.
Qed.

Lemma overlaps_iff (b : Booking.t) (start end_ : Z) :
  Booking.overlaps b start end_ = true
  <-> Booking.startTime b < end_ /\ Booking.endTime b > start.
Proof.
  unfold Booking.overlaps.
  rewrite andb_true_iff, Z.ltb_lt, Z.gtb_gt. reflexivity.
Qed.

Lemma conflictsWith_iff room start end_ exclude b :
  Booking.conflictsWith room start end_ exclude b = true
  <-> Conflicting room start end_ exclude b.
Proof.
  unfold Booking.conflictsWith, Conflicting.
  rewrite !andb_true_iff, negb_true_iff, Nat.eqb_eq, blocking_iff,
    excluded_iff, overlaps_iff.
  tauto.
Qed.

Lemma checkConflict_some coll room start end_ exclude k :
  Booking.checkConflict coll room start end_ exclude = Some k ->
  In k coll /\ Conflicting room start end_ exclude k.
Proof.
  unfold Booking.checkConflict. intros H.
  apply find_some in H. destruct H as [Hin Hc].
  split; [assumption | now apply conflictsWith_iff].
Qed.

Lemma checkConflict_none coll room start end_ exclude :
  Booking.checkConflict coll room start end_ exclude = None <->
  forall b, In b coll -> ~ Conflicting room start end_ exclude b.
Proof.
  unfold Booking.checkConflict. split.
  - intros H b Hin Hc.
    apply (find_none _ _ H) in Hin.
    apply conflictsWith_iff in Hc. congruence.
  - intros H.
    destruct (find _ coll) as [k|] eqn:E; [|reflexivity].
    apply find_some in E. destruct E as [Hin Hc].
    apply conflictsWith_iff in Hc. now destruct (H k Hin).
Qed.

Lemma checkConflict_found coll room start end_ exclude b :
  In b coll -> Conflicting room start end_ exclude b ->
  exists k, Booking.checkConflict coll room start end_ exclude = Some k.
Proof.
  intros Hin Hc.
  destruct (Booking.checkConflict coll room start end_ exclude) as [k|] eqn:E.
  - now exists k.
  - rewrite checkConflict_none in E. now destruct (E b Hin).
Qed.

(* ------------------------------------------------------------------ *)
(** ** The stored collection under save and delete *)

Lemma findById_some coll id b :
  Booking.findById coll id = inr (Some b) ->
  id = IdOf (Booking._id b) /\ In b coll.
Proof.
  unfold Booking.findById, findDocument.
  destruct id as [| |n]; try discriminate.
  intros [= H]. apply find_some in H. destruct H as [Hin Heq].
  apply Nat.eqb_eq in Heq. subst n. split; [reflexivity|assumption].
Qed.

Lemma findById_save coll id b b' :
  Booking.findById coll id = inr (Some b) ->
  Booking._id b' = Booking._id b ->
  Booking.findById (Booking.save coll b') id = inr (Some b').
Proof.
  intros Hb Hid.
  destruct (findById_some coll id b Hb) as [-> _].
  unfold Booking.findById, findDocument, Booking.save in *.
  injection Hb as Hb. f_equal. rewrite Hid.
  induction coll as [|d coll IH]; simpl in *; [discriminate|].
  destruct (Nat.eqb (Booking._id d) (Booking._id b)) eqn:E.
  - rewrite Hid, Nat.eqb_refl. reflexivity.
  - rewrite E. apply IH. exact Hb.
Qed.

Lemma findById_delete coll id b :
  Booking.findById coll id = inr (Some b) ->
  Booking.findByIdAndDelete coll id
  = inr (filter (fun d => negb (Nat.eqb (Booking._id d) (Booking._id b))) coll)
  /\ Booking.findById
       (filter (fun d => negb (Nat.eqb (Booking._id d) (Booking._id b))) coll) id
     = inr None.
Proof.
  intros Hb. unfold Booking.findByIdAndDelete. rewrite Hb.
  split; [reflexivity|].
  destruct (findById_some coll id b Hb) as [-> _].
  unfold Booking.findById, findDocument. f_equal.
  destruct (find _ (filter _ coll)) as [d|] eqn:E; [|reflexivity].
  apply find_some in E. destruct E as [Hin Heq].
  apply filter_In in Hin. destruct Hin as [_ Hne].
  rewrite Heq in Hne. discriminate.
Qed.

Lemma deleteFile_removes path files :
  ~ In path (filter (fun p => negb (String.eqb p path)) files).
Proof.
  rewrite filter_In. intros [_ H].
  rewrite String.eqb_refl in H. discriminate.
Qed.

(* ------------------------------------------------------------------ *)
(** ** The conflict detector *)

(** C1.  The conflict detector reports a booking exactly when some stored
    booking of the room that is neither cancelled nor rejected, other than
    the excluded one, has start < end_ and end > start; what it reports is
    such a booking.  An interval that starts where a stored booking ends, or
    ends where it starts, does not conflict with it; one that reaches one
    unit into it does. *)
Theorem checkConflict_half_open :
  forall coll room start end_ exclude (a : Booking.t),
    ((exists k, Booking.checkConflict coll room start end_ exclude = Some k)
     <-> (exists b, In b coll /\ Conflicting room start end_ exclude b))
    /\ (forall k, Booking.checkConflict coll room start end_ exclude = Some k ->
                  In k coll /\ Conflicting room start end_ exclude k)
    /\ Booking.checkConflict [a] (Booking.roomId a) (Booking.endTime a) end_ None
       = None
    /\ Booking.checkConflict [a] (Booking.roomId a) start (Booking.startTime a) None
       = None
    /\ (Booking.status a <> cancelled -> Booking.status a <> rejected ->
        Booking.startTime a < Booking.endTime a ->
        (Booking.endTime a <= end_ ->
         Booking.checkConflict [a] (Booking.roomId a) (Booking.endTime a - 1)
           end_ None = Some a)
        /\ (start <= Booking.startTime a ->
            Booking.checkConflict [a] (Booking.roomId a) start
              (Booking.startTime a + 1) None = Some a)).
Proof.
  intros coll room start end_ exclude a.
  split; [|split; [|split; [|split]]].
  - split.
    + intros [k Hk]. exists k. now apply checkConflict_some in Hk.
    + intros [b [Hin Hc]]. eapply checkConflict_found; eassumption.
  - intros k. apply checkConflict_some.
  - apply checkConflict_none. intros b [<-|[]] Hc.
    unfold Conflicting in Hc. lia.
  - apply checkConflict_none. intros b [<-|[]] Hc.
    unfold Conflicting in Hc. lia.
  - intros Hc Hr Hlt. split; intros Hle.
    + destruct (checkConflict_found [a] (Booking.roomId a)
                  (Booking.endTime a - 1) end_ None a) as [k Hk].
      * now left.
      * unfold Conflicting. repeat split; try assumption; try congruence; lia.
      * rewrite Hk. f_equal.
        apply checkConflict_some in Hk. destruct Hk as [[<-|[]] _]. reflexivity.
    + destruct (checkConflict_found [a] (Booking.roomId a) start
                  (Booking.startTime a + 1) None a) as [k Hk].
      * now left.
      * unfold Conflicting. repeat split; try assumption; try congruence; lia.
      * rewrite Hk. f_equal.
        apply checkConflict_some in Hk. destruct Hk as [[<-|[]] _]. reflexivity.
Qed.

(** A stored booking for 02:00-04:00: a request for 04:00-05:00 passes, a
    request for 03:59:59.999-05:00 conflicts with it. *)
Lemma checkConflict_half_open_witness :
  let a := Sample.booking 1 2 4 approved None in
  Booking.checkConflict [a] 1 (Sample.midnight + 4 * Sample.hour)
    (Sample.midnight + 5 * Sample.hour) None = None
  /\ Booking.checkConflict [a] 1 (Sample.midnight + 4 * Sample.hour - 1)
       (Sample.midnight + 5 * Sample.hour) None = Some a.
Proof.
  intros a.
  destruct (checkConflict_half_open [a] 1 (Sample.midnight + 1 * Sample.hour)
              (Sample.midnight + 5 * Sample.hour) None a)
    as (_ & _ & Hafter & _ & Hunit).
  split; [exact Hafter|].
  apply Hunit.
  - discriminate.
  - discriminate.
  - vm_compute. reflexivity.
  - vm_compute. discriminate.
Defined.

(* ------------------------------------------------------------------ *)
(** ** Running a handler *)

(** How [try { s; rest } catch { h }] runs, by the first statement [s]. *)
Section Steps.

Context {A : Type}.
Variable h : Exn -> World -> Response * World.
Implicit Types (w : World) (r : Response) (k : A -> Handler Empty_set).

Lemma try_respond r w : tryCatch (respond r) h w = (r, w).
Proof. reflexivity. Qed.

Lemma try_throw e w : tryCatch (throw e) h w = h e w.
Proof. reflexivity. Qed.

Lemma try_bind_ret (a : A) k w : tryCatch (bind (ret a) k) h w = tryCatch (k a) h w.
Proof. reflexivity. Qed.

Lemma try_bind_respond r k w : tryCatch (bind (respond r) k) h w = (r, w).
Proof. reflexivity. Qed.

Lemma try_bind_throw e k w : tryCatch (bind (throw e) k) h w = h e w.
Proof. reflexivity. Qed.

Lemma try_bind_query (q : World -> Exn + A) k w :
  tryCatch (bind (query q) k) h w
  = match q w with inl e => h e w | inr a => tryCatch (k a) h w end.
Proof. unfold tryCatch, bind, query. now destruct (q w). Qed.

Lemma try_bind_command (c : list Booking.t -> Exn + (A * list Booking.t)) k w :
  tryCatch (bind (command c) k) h w
  = match c (bookings w) with
    | inl e => h e w
    | inr (a, coll) =>
        tryCatch (k a) h
          {| bookings := coll; rooms := rooms w; uploads := uploads w |}
    end.
Proof.
  unfold tryCatch, bind, command.
  now destruct (c (bookings w)) as [e|[a coll]].
Qed.

Lemma try_bind_present (found : option A) r k w :
  tryCatch (bind (present found r) k) h w
  = match found with Some a => tryCatch (k a) h w | None => (r, w) end.
Proof. now destruct found. Qed.

End Steps.

Section UnitSteps.

Variable h : Exn -> World -> Response * World.
Implicit Types (w : World) (r : Response) (k : unit -> Handler Empty_set).

Lemma try_bind_rejectIf c r k w :
  tryCatch (bind (rejectIf c r) k) h w
  = if c then (r, w) else tryCatch (k tt) h w.
Proof. now destruct c. Qed.

Lemma try_bind_when c m k w :
  tryCatch (bind (when c m) k) h w
  = if c then tryCatch (bind m k) h w else tryCatch (k tt) h w.
Proof. now destruct c. Qed.

Lemma try_bind_deleteFile path k w :
  tryCatch (bind (deleteFile path) k) h w
  = tryCatch (k tt) h
      {| bookings := bookings w; rooms := rooms w;
         uploads := filter (fun p => negb (String.eqb p path)) (uploads w) |}.
Proof. reflexivity. Qed.

Lemma try_bind_activeRoom found (k : Room.t -> Handler Empty_set) w :
  tryCatch (bind (activeRoom found) k) h w
  = match found with
    | Some room =>
        if Room.isActive room then tryCatch (k room) h w
        else (failure 404 "Ruangan tidak ditemukan atau tidak aktif", w)
    | None => (failure 404 "Ruangan tidak ditemukan atau tidak aktif", w)
    end.
Proof.
  destruct found as [room|]; [|reflexivity].
  unfold activeRoom. now destruct (Room.isActive room).
Qed.

Lemma try_bind_populate ctx k w :
  tryCatch (bind (populate ctx) k) h w
  = match populateError ctx with
    | Some error => h error w
    | None => tryCatch (k tt) h w
    end.
Proof.
  unfold tryCatch, bind, populate. destruct (populateError ctx); reflexivity.
Qed.

Lemma try_bind_bind {A B} (m : Handler A) (f : A -> Handler B)
    (k : B -> Handler Empty_set) w :
  tryCatch (bind (bind m f) k) h w
  = tryCatch (bind m (fun a => bind (f a) k)) h w.
Proof. unfold tryCatch, bind. now destruct (m w) as [[a|r|e] w']. Qed.

End UnitSteps.

(** One statement of the handler at the head of the goal. *)
Ltac step :=
  first
    [ rewrite try_bind_rejectIf | rewrite try_bind_query
    | rewrite try_bind_command | rewrite try_bind_present
    | rewrite try_bind_activeRoom | rewrite try_bind_deleteFile
    | rewrite try_bind_populate
    | rewrite try_bind_when | rewrite try_bind_ret | rewrite try_bind_respond
    | rewrite try_bind_throw | rewrite try_bind_bind
    | rewrite try_respond | rewrite try_throw ];
  cbv beta iota.

(** Case analysis on the test the handler performs next. *)
Ltac branch :=
  match goal with
  | |- context [match ?x with _ => _ end] => destruct x eqn:?
  end;
  cbv beta iota.

Ltac run := repeat (repeat step; try branch).

(* ------------------------------------------------------------------ *)
(** ** Status transitions by an admin *)

Lemma statusOfString_inv s to :
  statusOfString s = Some to ->
  s = match to with
      | pending => "pending" | approved => "approved" | rejected => "rejected"
      | cancelled => "cancelled" | completed => "completed"
      end.
Proof.
  unfold statusOfString.
  repeat match goal with
         | |- context [String.eqb ?a ?b] =>
             destruct (String.eqb_spec a b); [subst; intros [= <-]; reflexivity|]
         end.
  discriminate.
Qed.

Lemma accepted_status s :
  negb (existsb (String.eqb s) ["approved"; "rejected"; "completed"]) = false ->
  s = "approved" \/ s = "rejected" \/ s = "completed".
Proof.
  rewrite negb_false_iff, existsb_exists.
  intros [x [Hin Heq]]. apply String.eqb_eq in Heq. subst x.
  simpl in Hin. intuition congruence.
Qed.

Lemma allowedb_iff from to :
  allowedb from to = true <-> allowedTransition from to.
Proof.
  unfold allowedTransition.
  destruct from, to; simpl; split; intros H; try reflexivity;
    try discriminate; try tauto;
    (destruct H as [[? ?]|[[?|?] ?]]; congruence).
Qed.

(** What the status route does with a valid target on a stored booking. *)
Lemma patchStatus_found ctx id body w b s target :
  Booking.findById (bookings w) id = inr (Some b) ->
  s_status body = Some s -> statusOfString s = Some target ->
  In target [approved; rejected; completed] ->
  patchStatus ctx id body w
  = if negb (allowedb (Booking.status b) target)
    then (failure 400 (refusal target), w)
    else
      match (if Status_eqb target approved
             then Booking.checkConflict (bookings w) (Booking.roomId b)
                    (Booking.startTime b) (Booking.endTime b)
                    (Some (Booking._id b))
             else None) with
      | Some k =>
          (failureWith 400
             "Tidak dapat menyetujui booking karena ada konflik jadwal"
             (conflictOf k None), w)
      | None =>
          let note := match s_adminNote body with Some n => n | None => "" end in
          let b' := Booking.updateStatus b target note (user ctx) in
          let w' := {| bookings := Booking.save (bookings w) b';
                       rooms := rooms w; uploads := uploads w |} in
          match populateError ctx with
          | Some CastError => (failure 404 "Booking tidak ditemukan", w')
          | Some _ =>
              (failure 500 "Server error saat mengupdate status booking", w')
          | None =>
              (successWith 200 ("Booking berhasil " ++ actionMessage target)
                 (Some b'), w')
          end
      end.
Proof.
  intros Hb Hs Ht Hin.
  apply statusOfString_inv in Ht.
  unfold patchStatus. rewrite Hs.
  destruct Hin as [<-|[<-|[<-|[]]]]; subst s; cbv beta iota;
    change (truthy _) with true; cbv beta iota;
    repeat step; rewrite Hb; repeat step.
  - change (("approved" =? "completed")%string) with false.
    change (("approved" =? "approved")%string) with true.
    cbv beta iota. simpl andb.
    destruct (Booking.status b) eqn:Hst; simpl; repeat step;
      try reflexivity.
    destruct (Booking.checkConflict _ _ _ _ _); repeat step; reflexivity.
  - change (("rejected" =? "completed")%string) with false.
    change (("rejected" =? "approved")%string) with false.
    change (("rejected" =? "rejected")%string) with true.
    cbv beta iota. simpl andb.
    destruct (Booking.status b) eqn:Hst; simpl; repeat step; reflexivity.
  - change (("completed" =? "completed")%string) with true.
    change (("completed" =? "approved")%string) with false.
    change (("completed" =? "rejected")%string) with false.
    cbv beta iota. simpl andb.
    destruct (Booking.status b) eqn:Hst; simpl; repeat step; reflexivity.
Qed.

Lemma patchStatus_success ctx id body w :
  success (fst (patchStatus ctx id body w)) = true ->
  exists b s target,
    Booking.findById (bookings w) id = inr (Some b)
    /\ s_status body = Some s /\ statusOfString s = Some target
    /\ allowedTransition (Booking.status b) target.
Proof.
  unfold patchStatus. run; try (simpl; discriminate).
  all: intros _;
    match goal with
    | Hf : Booking.findById _ _ = inr (Some ?t),
      Ha : negb (existsb _ _) = false,
      Ht : statusOfString ?s = Some ?s0 |- _ =>
        exists t, s, s0; repeat split; try assumption;
        apply allowedb_iff; apply accepted_status in Ha;
        destruct Ha as [Ha|[Ha|Ha]]; subst s; vm_compute in Ht;
        injection Ht as Ht; subst s0
    end;
    destruct (Booking.status _); simpl in *; congruence.
Qed.

(** C2 (as amended).  The status route succeeds only on a transition of the
    table: to completed from approved, to approved or rejected from pending.
    Every other attempt with a valid target on a stored booking is answered
    400 with a fixed message that names the status the transition must start
    from, and the world is left as it was. *)
Theorem patchStatus_transition_guard :
  forall ctx id body w,
    (success (fst (patchStatus ctx id body w)) = true ->
     exists b s target,
       Booking.findById (bookings w) id = inr (Some b)
       /\ s_status body = Some s /\ statusOfString s = Some target
       /\ allowedTransition (Booking.status b) target)
    /\ (forall b s target,
          Booking.findById (bookings w) id = inr (Some b) ->
          s_status body = Some s -> statusOfString s = Some target ->
          In target [approved; rejected; completed] ->
          ~ allowedTransition (Booking.status b) target ->
          patchStatus ctx id body w = (failure 400 (refusal target), w)).
Proof.
  intros ctx id body w. split.
  - apply patchStatus_success.
  - intros b s target Hb Hs Ht Hin Hno.
    rewrite (patchStatus_found ctx id body w b s target Hb Hs Ht Hin).
    destruct (allowedb (Booking.status b) target) eqn:Ha; [|reflexivity].
    apply allowedb_iff in Ha. contradiction.
Qed.

(** An approved booking cannot be set to rejected; the world stays. *)
Lemma patchStatus_transition_guard_witness :
  patchStatus (Sample.caller 1 None) (IdOf 1) (Sample.setStatus "rejected")
    (Sample.world [Sample.booking 1 2 4 approved None] [])
  = (failure 400 (refusal rejected),
     Sample.world [Sample.booking 1 2 4 approved None] []).
Proof.
  apply (proj2 (patchStatus_transition_guard _ _ _ _)
           (Sample.booking 1 2 4 approved None) "rejected" rejected).
  - reflexivity.
  - reflexivity.
  - reflexivity.
  - simpl. tauto.
  - unfold allowedTransition. simpl.
    intros [[H _]|[_ H]]; discriminate.
Defined.

(** C2, the counterexample: the refusal does not carry the current status.
    Rejecting an approved booking and rejecting a completed one are answered
    by the same response, whose only content is the fixed message. *)
Lemma patchStatus_refusal_hides_current_status :
  fst (patchStatus (Sample.caller 1 None) (IdOf 1) (Sample.setStatus "rejected")
         (Sample.world [Sample.booking 1 2 4 approved None] []))
  = fst (patchStatus (Sample.caller 1 None) (IdOf 1) (Sample.setStatus "rejected")
           (Sample.world [Sample.booking 1 2 4 completed None] []))
  /\ fst (patchStatus (Sample.caller 1 None) (IdOf 1) (Sample.setStatus "rejected")
            (Sample.world [Sample.booking 1 2 4 approved None] []))
     = {| code := 400; success := false;
          message := "Hanya booking dengan status pending yang dapat disetujui atau ditolak";
          conflict := None; data := None |}
  /\ approved <> completed.
Proof. repeat split; try reflexivity. discriminate. Qed.

(* ------------------------------------------------------------------ *)
(** ** Approval *)

(** C3.  At approval the conflict check runs again, against every other
    booking of the room that is neither cancelled nor rejected: when such a
    booking [x] (an approved one in particular) overlaps the pending booking
    [y], approving [y] is refused with the conflict response naming a
    conflicting booking, the world is left as it was and [y] stays pending. *)
Theorem approval_rechecks_conflict :
  forall ctx id body w x y,
    Booking.findById (bookings w) id = inr (Some y) ->
    s_status body = Some "approved" ->
    Booking.status y = pending ->
    In x (bookings w) ->
    Booking._id x <> Booking._id y ->
    Booking.roomId x = Booking.roomId y ->
    Booking.status x <> cancelled -> Booking.status x <> rejected ->
    Booking.startTime x < Booking.endTime y ->
    Booking.endTime x > Booking.startTime y ->
    exists k,
      patchStatus ctx id body w
      = (failureWith 400
           "Tidak dapat menyetujui booking karena ada konflik jadwal"
           (conflictOf k None), w)
      /\ In k (bookings w)
      /\ Conflicting (Booking.roomId y) (Booking.startTime y)
           (Booking.endTime y) (Some (Booking._id y)) k
      /\ Booking.findById (bookings (snd (patchStatus ctx id body w))) id
         = inr (Some y)
      /\ Booking.status y = pending.
Proof.
  intros ctx id body w x y Hy Hs Hp Hin Hid Hroom Hc Hr Hlt Hgt.
  destruct (checkConflict_found (bookings w) (Booking.roomId y)
              (Booking.startTime y) (Booking.endTime y)
              (Some (Booking._id y)) x Hin) as [k Hk].
  { unfold Conflicting. repeat split; try assumption. congruence. }
  exists k.
  assert (E : patchStatus ctx id body w
              = (failureWith 400
                   "Tidak dapat menyetujui booking karena ada konflik jadwal"
                   (conflictOf k None), w)).
  { rewrite (patchStatus_found ctx id body w y "approved" approved Hy Hs);
      [|reflexivity|simpl; tauto].
    rewrite Hp. simpl. rewrite Hk. reflexivity. }
  rewrite E.
  apply checkConflict_some in Hk. destruct Hk as [Hkin Hkc].
  split; [reflexivity|]. split; [assumption|]. split; [assumption|].
  split; assumption.
Qed.

(** The check is the only gate of an approval: a pending booking that no
    other booking of the room conflicts with is approved, and stored so
    (the population query for the notification going through). *)
Lemma approval_without_conflict ctx id body w y :
  Booking.findById (bookings w) id = inr (Some y) ->
  s_status body = Some "approved" ->
  Booking.status y = pending ->
  populateError ctx = None ->
  (forall x, In x (bookings w) ->
             ~ Conflicting (Booking.roomId y) (Booking.startTime y)
                 (Booking.endTime y) (Some (Booking._id y)) x) ->
  success (fst (patchStatus ctx id body w)) = true
  /\ exists y',
       Booking.findById (bookings (snd (patchStatus ctx id body w))) id
       = inr (Some y')
       /\ Booking.status y' = approved.
Proof.
  intros Hy Hs Hp Hpop Hno.
  apply checkConflict_none in Hno.
  rewrite (patchStatus_found ctx id body w y "approved" approved Hy Hs);
    [|reflexivity|simpl; tauto].
  rewrite Hp. simpl negb. cbv beta iota. simpl Status_eqb. cbv beta iota.
  rewrite Hno, Hpop. cbv zeta. split; [reflexivity|].
  eexists. split.
  - simpl snd. simpl bookings.
    apply (findById_save (bookings w) id y); [exact Hy|reflexivity].
  - reflexivity.
Qed.

(** [x] was approved for 02:00-04:00; [y], pending for 03:00-05:00 in the
    same room, can no longer be approved. *)
Lemma approval_rechecks_conflict_witness :
  let x := Sample.booking 1 2 4 approved None in
  let y := Sample.booking 2 3 5 pending None in
  let w := Sample.world [x; y] [] in
  exists k,
    patchStatus (Sample.caller 1 None) (IdOf 2) (Sample.setStatus "approved") w
    = (failureWith 400
         "Tidak dapat menyetujui booking karena ada konflik jadwal"
         (conflictOf k None), w)
    /\ In k (bookings w)
    /\ Conflicting (Booking.roomId y) (Booking.startTime y)
         (Booking.endTime y) (Some (Booking._id y)) k
    /\ Booking.findById
         (bookings
            (snd (patchStatus (Sample.caller 1 None) (IdOf 2)
                    (Sample.setStatus "approved") w))) (IdOf 2)
       = inr (Some y)
    /\ Booking.status y = pending.
Proof.
  intros x y w.
  apply (approval_rechecks_conflict (Sample.caller 1 None) (IdOf 2)
           (Sample.setStatus "approved") w x y).
  - reflexivity.
  - reflexivity.
  - reflexivity.
  - simpl. tauto.
  - simpl. discriminate.
  - reflexivity.
  - simpl. discriminate.
  - simpl. discriminate.
  - vm_compute. reflexivity.
  - vm_compute. reflexivity.
Defined.

(* ------------------------------------------------------------------ *)
(** ** Creating a booking *)

Section Create.

Variable localOffset : Z -> Z.
Variable createValidators : Booking.Data -> list string.

Local Abbreviation post := (postBooking localOffset createValidators).

(** What the create route does with a screened request. *)
Lemma postBooking_screened ctx body w room start end_ :
  Screened ctx body w room start end_ ->
  post ctx body w
  = match Booking.checkConflict (bookings w) (Room._id room) start end_ None with
    | Some k => (conflictResponse k (Some (Booking.userId k)), w)
    | None =>
        if countTruthy (c_participantsCount body)
           && Js.gt (countToNumber (c_participantsCount body))
                (Some (Room.capacity room))
        then (capacityResponse (c_participantsCount body) room, w)
        else if (toDateString localOffset start =? toDateString localOffset end_)
                && outsideHours room start end_
        then (closedResponse room, w)
        else
          match c_purpose body with
          | None =>
              (failure 500 "Server error saat membuat booking",
               dropUpload ctx w)
          | Some p =>
              match Booking.create createValidators (bookings w)
                      (bookingDataOf ctx body room start end_ p) with
              | inl (ValidationError messages) =>
                  (failure 400 (String.concat ", " messages),
                   dropUpload ctx w)
              | inl _ =>
                  (failure 500 "Server error saat membuat booking",
                   dropUpload ctx w)
              | inr (b, coll) =>
                  let w' := {| bookings := coll; rooms := rooms w;
                               uploads := uploads w |} in
                  match populateError ctx with
                  | Some (ValidationError messages) =>
                      (failure 400 (String.concat ", " messages),
                       dropUpload ctx w')
                  | Some _ =>
                      (failure 500 "Server error saat membuat booking",
                       dropUpload ctx w')
                  | None => (createdResponse b, w')
                  end
              end
          end
    end.
Proof.
  intros (Hact & Hroom & Hactive & Hs & He & Hlt & Hnow).
  assert (Hid : idTruthy (c_roomId body) = true).
  { destruct (c_roomId body); [discriminate Hroom|reflexivity|reflexivity]. }
  unfold post, postBooking.
  rewrite Hact, Hid, Hs, He. simpl negb. simpl orb. cbv beta iota.
  repeat step. rewrite Hroom. repeat step. rewrite Hactive.
  simpl newDate. cbv beta iota. repeat step.
  replace (end_ <=? start) with false by (symmetry; apply Z.leb_gt; lia).
  replace (start <? now ctx) with false by (symmetry; apply Z.ltb_ge; lia).
  repeat step.
  destruct (Booking.checkConflict _ _ _ _ _) as [k|]; repeat step;
    [reflexivity|].
  destruct (countTruthy (c_participantsCount body)
            && Js.gt (countToNumber (c_participantsCount body))
                 (Some (Room.capacity room))); repeat step; [reflexivity|].
  unfold checkWorkingHours.
  destruct (toDateString localOffset start =? toDateString localOffset end_);
    simpl negb; simpl andb; repeat step.
  - destruct (outsideHours room start end_); repeat step; [reflexivity|].
    destruct (c_purpose body) as [p|]; repeat step; [|reflexivity].
    unfold bookingDataOf.
    destruct (Booking.create _ _ _) as [[| |m|]|[b coll]]; repeat step;
      reflexivity.
  - destruct (c_purpose body) as [p|]; repeat step; [|reflexivity].
    unfold bookingDataOf.
    destruct (Booking.create _ _ _) as [[| |m|]|[b coll]]; repeat step;
      reflexivity.
Qed.

(** A request is screened, or it is answered by one of the screening
    failures without a look at the bookings, and nothing is written. *)
Lemma postBooking_screening ctx body w :
  (exists room start end_, Screened ctx body w room start end_)
  \/ (In (fst (post ctx body w)) screeningFailures
      /\ bookings (snd (post ctx body w)) = bookings w).
Proof.
  unfold post, postBooking.
  step.
  destruct (idTruthy (c_roomId body)) eqn:Hid; simpl negb; simpl orb;
    [|right; simpl; tauto].
  destruct (truthy (c_activityName body)) eqn:Hact; simpl negb; simpl orb;
    [|right; simpl; tauto].
  destruct (dateTruthy (c_startTime body)) eqn:Hds; simpl negb; simpl orb;
    [|right; simpl; tauto].
  destruct (dateTruthy (c_endTime body)) eqn:Hde; simpl negb;
    [|right; simpl; tauto].
  cbv beta iota. step.
  destruct (Room.findById (rooms w) (c_roomId body)) as [e|[room|]] eqn:Hroom.
  { right. unfold Room.findById, findDocument in Hroom.
    destruct (c_roomId body); try discriminate Hroom.
    injection Hroom as <-. unfold dropUpload.
    destruct (file ctx); simpl; tauto. }
  2:{ right. step. simpl. tauto. }
  step.
  destruct (Room.isActive room) eqn:Hactive; [|right; simpl; tauto].
  destruct (c_startTime body) as [| |start] eqn:Hs; simpl newDate;
    cbv beta iota; try (right; step; simpl; tauto).
  destruct (c_endTime body) as [| |end_] eqn:He; simpl newDate;
    cbv beta iota; try (right; step; simpl; tauto).
  step.
  destruct (end_ <=? start) eqn:Hle; [right; simpl; tauto|].
  step.
  destruct (start <? now ctx) eqn:Hnow; [right; simpl; tauto|].
  left. exists room, start, end_.
  apply Z.leb_gt in Hle. apply Z.ltb_ge in Hnow.
  unfold Screened. repeat split; assumption.
Qed.

Lemma screeningFailures_fail r :
  In r screeningFailures -> success r = false /\ conflict r = None.
Proof.
  unfold screeningFailures. simpl.
  intros H. repeat (destruct H as [<-|H]; [split; reflexivity|]).
  destruct H.
Qed.

Lemma postBooking_success_screened ctx body w :
  success (fst (post ctx body w)) = true ->
  exists room start end_, Screened ctx body w room start end_.
Proof.
  intros H. destruct (postBooking_screening ctx body w) as [S|[F _]];
    [exact S|].
  apply screeningFailures_fail in F. destruct F as [F _].
  rewrite F in H. discriminate.
Qed.


(** C10.  When [participantsCount] is omitted or empty, the booking a
    successful create request makes has a participant count of 1: it is
    the booking of the 201 response and the one appended to the
    collection. *)
Theorem postBooking_default_participants :
  forall ctx body w,
    c_participantsCount body = CountOmitted
    \/ c_participantsCount body = CountEmpty ->
    success (fst (post ctx body w)) = true ->
    exists b,
      fst (post ctx body w) = createdResponse b
      /\ bookings (snd (post ctx body w)) = (bookings w ++ [b])%list
      /\ Booking.participantsCount b = 1.
Proof.
  intros ctx body w Hpc Hok.
  destruct (postBooking_success_screened ctx body w Hok)
    as (room & start & end_ & S).
  revert Hok.
  rewrite (postBooking_screened ctx body w room start end_ S).
  assert (Hf : countTruthy (c_participantsCount body) = false)
    by (destruct Hpc as [-> | ->]; reflexivity).
  rewrite Hf. simpl andb. cbv beta iota.
  destruct (Booking.checkConflict _ _ _ _ _); [simpl; discriminate|].
  destruct (_ && _); [simpl; discriminate|].
  destruct (c_purpose body) as [p|]; [|simpl; discriminate].
  unfold Booking.create, bookingDataOf. simpl Booking.d_participantsCount.
  rewrite Hf.
  destruct (createValidators _) as [|m ms]; [|simpl; discriminate].
  cbv zeta.
  destruct (populateError ctx) as [[| |messages|]|];
    try (simpl; discriminate).
  intros _. eexists. simpl. repeat split.
Qed.

End Create.



(** A request without a participant count, 11:00-12:00 Jakarta time. *)
Lemma postBooking_default_participants_witness :
  let body :=
    {| c_roomId := IdOf 1; c_activityName := "Seminar";
       c_startTime := DateAt (Sample.midnight + 4 * Sample.hour);
       c_purpose := Some "Seminar tahunan";
       c_endTime := DateAt (Sample.midnight + 5 * Sample.hour);
       c_participantsCount := CountOmitted |} in
  let run :=
    postBooking Sample.jakarta Sample.createValidators (Sample.caller 9 None)
      body (Sample.world [Sample.booking 1 2 4 pending None] []) in
  exists b,
    fst run = createdResponse b
    /\ bookings (snd run) = [Sample.booking 1 2 4 pending None; b]
    /\ Booking.participantsCount b = 1.
Proof.
  intros body run.
  apply (postBooking_default_participants Sample.jakarta
           Sample.createValidators (Sample.caller 9 None) body
           (Sample.world [Sample.booking 1 2 4 pending None] [])).
  - left. reflexivity.
  - reflexivity.
Defined.

(* ------------------------------------------------------------------ *)
(** ** Uploaded documents of refused requests *)

(** The create route writes no record unless it answers 201, or unless
    the population query that follows the write fails. *)
Lemma postBooking_failure_writes_nothing localOffset createValidators ctx body w :
  populateError ctx = None ->
  success (fst (postBooking localOffset createValidators ctx body w)) = false ->
  bookings (snd (postBooking localOffset createValidators ctx body w))
  = bookings w.
Proof.
  intros Hpop.
  destruct (postBooking_screening localOffset createValidators ctx body w)
    as [(room & start & end_ & S)|[_ E]]; [|intros _; exact E].
  rewrite (postBooking_screened _ _ ctx body w room start end_ S).
  destruct (Booking.checkConflict _ _ _ _ _); [reflexivity|].
  destruct (_ && _); [reflexivity|].
  destruct (_ && _); [reflexivity|].
  unfold dropUpload.
  destruct (c_purpose body); [|destruct (file ctx); reflexivity].
  destruct (Booking.create _ _ _) as [[| |m|]|[b coll]];
    try (destruct (file ctx); reflexivity).
  rewrite Hpop. simpl. discriminate.
Qed.

(** The catch block does delete the upload: a screened request without a
    [purpose] throws at [purpose.trim()], and the stored file is gone. *)
Lemma postBooking_catch_drops_upload localOffset createValidators ctx body w
    room start end_ path :
  Screened ctx body w room start end_ ->
  Booking.checkConflict (bookings w) (Room._id room) start end_ None = None ->
  exceedsCapacity body room = false ->
  toDateString localOffset start <> toDateString localOffset end_ ->
  c_purpose body = None ->
  file ctx = Some path ->
  fst (postBooking localOffset createValidators ctx body w)
  = failure 500 "Server error saat membuat booking"
  /\ ~ In path (uploads (snd (postBooking localOffset createValidators ctx body w))).
Proof.
  intros S Hc Hcap Hday Hp Hf.
  rewrite (postBooking_screened _ _ ctx body w room start end_ S).
  unfold exceedsCapacity in Hcap. rewrite Hc, Hcap, Hp.
  apply Z.eqb_neq in Hday. rewrite Hday. simpl andb. cbv beta iota.
  split; [reflexivity|].
  unfold dropUpload. rewrite Hf. simpl.
  rewrite filter_In. intros [_ H].
  rewrite String.eqb_refl in H. discriminate.
Qed.

(** C9, at the failing input.  A create request arrives with the document
    surat.pdf already stored by the upload middleware, and it conflicts with
    a stored booking (or lacks its activity name).  The route answers 400 and
    writes no record, but the document is still in the upload directory:
    only the catch block deletes it. *)
Theorem postBooking_refusal_leaves_upload :
  let doc := "uploads/documents/surat.pdf" in
  let w := Sample.world [Sample.booking 1 2 4 approved None] [doc] in
  let request name :=
    {| c_roomId := IdOf 1; c_activityName := name;
       c_startTime := DateAt (Sample.midnight + 3 * Sample.hour);
       c_purpose := Some "Seminar tahunan";
       c_endTime := DateAt (Sample.midnight + 5 * Sample.hour);
       c_participantsCount := CountNumber 5 |} in
  let run name :=
    postBooking Sample.jakarta Sample.createValidators
      (Sample.caller 9 (Some doc)) (request name) w in
  (fst (run "Seminar")
   = conflictResponse (Sample.booking 1 2 4 approved None) (Some 7%nat)
   /\ bookings (snd (run "Seminar")) = bookings w
   /\ In doc (uploads (snd (run "Seminar"))))
  /\ (fst (run "")
      = failure 400
          "Room ID, nama kegiatan, waktu mulai, dan waktu selesai harus diisi"
      /\ bookings (snd (run "")) = bookings w
      /\ In doc (uploads (snd (run "")))).
Proof.
  intros doc w request run.
  repeat split; try reflexivity; vm_compute; tauto.
Qed.

(* ------------------------------------------------------------------ *)
(** ** The operating-hours rule, zone by zone *)

Lemma jakarta_clock (t : Z) :
  jakartaDate t = (t / 3600000 + 7) / 24
  /\ jakartaHour t = (t / 3600000 + 7) mod 24.
Proof.
  unfold jakartaDate, jakartaHour, Js.getUTCHours. split.
  - rewrite <- (Z.div_add t 7 3600000) by lia.
    rewrite Z.div_div by lia. reflexivity.
  - rewrite Z.add_mod_idemp_l by lia. reflexivity.
Qed.

(** Within one Jakarta date the hour does not decrease. *)
Lemma jakartaHour_monotone (start end_ : Z) :
  jakartaDate start = jakartaDate end_ -> start <= end_ ->
  jakartaHour start <= jakartaHour end_.
Proof.
  destruct (jakarta_clock start) as [-> ->].
  destruct (jakarta_clock end_) as [-> ->].
  intros Hday Hle.
  assert (H : start / 3600000 <= end_ / 3600000)
    by (apply Z.div_le_mono; lia).
  pose proof (Z.div_mod (start / 3600000 + 7) 24).
  pose proof (Z.div_mod (end_ / 3600000 + 7) 24).
  lia.
Qed.

(** On a same-day interval the test of the handler says whether both hours
    lie in the window. *)
Lemma outsideHours_window room start end_ opens closes :
  roomStartHour room = Some opens -> roomEndHour room = Some closes ->
  jakartaDate start = jakartaDate end_ -> start <= end_ ->
  (outsideHours room start end_ = false
   <-> (opens <= jakartaHour start <= closes
        /\ opens <= jakartaHour end_ <= closes)).
Proof.
  intros Ho Hc Hday Hle.
  pose proof (jakartaHour_monotone start end_ Hday Hle) as Hm.
  unfold outsideHours, Js.gt, Js.lt. rewrite Ho, Hc.
  rewrite orb_false_iff, !Z.ltb_ge. lia.
Qed.

Section Hours.

Variable localOffset : Z -> Z.
Variable createValidators : Booking.Data -> list string.

(** The rule in any zone: the hours are tested exactly when the two
    instants have the same date on the server's local clock. *)
Lemma postBooking_hours ctx body w room start end_ :
  Screened ctx body w room start end_ ->
  Booking.checkConflict (bookings w) (Room._id room) start end_ None = None ->
  exceedsCapacity body room = false ->
  postBooking localOffset createValidators ctx body w
  = if (toDateString localOffset start =? toDateString localOffset end_)
       && outsideHours room start end_
    then (closedResponse room, w)
    else store createValidators ctx body w room start end_.
Proof.
  intros S Hc Hcap.
  rewrite (postBooking_screened _ _ ctx body w room start end_ S).
  unfold exceedsCapacity in Hcap. rewrite Hc, Hcap. reflexivity.
Qed.

(** X13.  On a server whose local clock is seven hours ahead of UTC the
    working-hours rule of the create route is a rule on Jakarta time: a
    request that passed the earlier checks and lies within one Jakarta date
    must have both of its Jakarta hours in the room's window, or it is
    refused with the window and nothing is written; an interval over
    several Jakarta dates is not tested. *)
Lemma postBooking_hours_on_jakarta_time ctx body w room start end_
    opens closes :
  (forall t, localOffset t = 420) ->
  Screened ctx body w room start end_ ->
  Booking.checkConflict (bookings w) (Room._id room) start end_ None = None ->
  exceedsCapacity body room = false ->
  roomStartHour room = Some opens -> roomEndHour room = Some closes ->
  (jakartaDate start = jakartaDate end_ ->
   ~ (opens <= jakartaHour start <= closes
      /\ opens <= jakartaHour end_ <= closes) ->
   postBooking localOffset createValidators ctx body w
   = (closedResponse room, w))
  /\ (jakartaDate start = jakartaDate end_ ->
      opens <= jakartaHour start <= closes
      /\ opens <= jakartaHour end_ <= closes ->
      postBooking localOffset createValidators ctx body w
      = store createValidators ctx body w room start end_)
  /\ (jakartaDate start <> jakartaDate end_ ->
      postBooking localOffset createValidators ctx body w
      = store createValidators ctx body w room start end_).
Proof.
  intros Hz S Hc Hcap Ho Hcl.
  rewrite (postBooking_hours ctx body w room start end_ S Hc Hcap).
  assert (Hd : forall t, toDateString localOffset t = jakartaDate t).
  { intros t. unfold toDateString, jakartaDate. rewrite Hz. reflexivity. }
  rewrite !Hd.
  assert (Hle : start <= end_) by (destruct S as (_ & _ & _ & _ & _ & H & _); lia).
  split; [|split].
  - intros Hday Hout. rewrite Hday, Z.eqb_refl. simpl andb.
    destruct (outsideHours room start end_) eqn:E; [reflexivity|].
    apply (outsideHours_window room start end_ opens closes Ho Hcl Hday Hle) in E.
    contradiction.
  - intros Hday Hin. rewrite Hday, Z.eqb_refl. simpl andb.
    apply (outsideHours_window room start end_ opens closes Ho Hcl Hday Hle) in Hin.
    rewrite Hin. reflexivity.
  - intros Hday. apply Z.eqb_neq in Hday. rewrite Hday. reflexivity.
Qed.

End Hours.

(** C8, at the failing input.  A request for 06:00-09:00 Jakarta time of
    27 March 2030, in the hall that opens at 08:00.  Both instants are on the
    same Jakarta date and the start hour is before opening.  On a server
    whose local zone is UTC the two instants have different local dates
    (23:00 of the 26th, 02:00 of the 27th), the route takes the interval for
    a multi-day one and creates the booking.  On a server on Jakarta time the
    same request is refused with the operating hours.  The update route
    moves a pending booking to that interval in the same way. *)
Theorem postBooking_hours_follow_server_zone :
  let start := Sample.midnight - 1 * Sample.hour in
  let end_ := Sample.midnight + 2 * Sample.hour in
  let body :=
    {| c_roomId := IdOf 1; c_activityName := "Senam pagi";
       c_startTime := DateAt start; c_purpose := Some "Olahraga";
       c_endTime := DateAt end_; c_participantsCount := CountNumber 5 |} in
  let run zone :=
    postBooking zone Sample.createValidators (Sample.caller 9 None) body
      (Sample.world [] []) in
  let move :=
    {| p_activityName := ""; p_startTime := DateAt start;
       p_endTime := DateAt end_; p_participantsCount := CountOmitted |} in
  let rerun zone :=
    putBooking zone Sample.updateValidators (Sample.caller 7 None) (IdOf 1)
      move (Sample.world [Sample.booking 1 2 4 pending None] []) in
  toDateString Sample.jakarta start = toDateString Sample.jakarta end_
  /\ jakartaDate start = jakartaDate end_
  /\ jakartaHour start = 6 /\ roomStartHour Sample.hall = Some 8
  /\ (exists b,
        fst (run Sample.utc) = createdResponse b
        /\ bookings (snd (run Sample.utc)) = [b]
        /\ Booking.startTime b = start /\ Booking.endTime b = end_)
  /\ fst (run Sample.jakarta) = closedResponse Sample.hall
  /\ (exists b,
        fst (rerun Sample.utc)
        = successWith 200 "Booking berhasil diupdate" (Some b)
        /\ bookings (snd (rerun Sample.utc)) = [b]
        /\ Booking.startTime b = start /\ Booking.endTime b = end_)
  /\ fst (rerun Sample.jakarta) = closedResponse Sample.hall.
Proof.
  intros start end_ body run move rerun.
  split; [reflexivity|]. split; [reflexivity|]. split; [reflexivity|].
  split; [reflexivity|]. split.
  { eexists. repeat split; reflexivity. }
  split; [reflexivity|]. split.
  { eexists. repeat split; reflexivity. }
  reflexivity.
Qed.

(* ------------------------------------------------------------------ *)
(** ** Cancelling *)

(** What the cancel route does with a stored booking. *)
Lemma patchCancel_found ctx id w b :
  Booking.findById (bookings w) id = inr (Some b) ->
  patchCancel ctx id w
  = if negb (Nat.eqb (Booking.userId b) (user ctx))
    then (failure 403 "Tidak memiliki akses untuk membatalkan booking ini", w)
    else if Status_eqb (Booking.status b) cancelled
            || Status_eqb (Booking.status b) rejected
    then (failure 400 "Booking sudah dibatalkan atau ditolak", w)
    else if Booking.startTime b <? now ctx
    then (failure 400 "Tidak dapat membatalkan booking yang sudah dimulai", w)
    else
      let b' := Booking.updateStatus b cancelled "Dibatalkan oleh user" (user ctx) in
      (successWith 200 "Booking berhasil dibatalkan" (Some b'),
       {| bookings := Booking.save (bookings w) b';
          rooms := rooms w; uploads := uploads w |}).
Proof.
  intros Hb. unfold patchCancel.
  step. rewrite Hb. repeat step.
  destruct (negb _); [reflexivity|].
  destruct (_ || _); [reflexivity|].
  destruct (_ <? _); reflexivity.
Qed.

Lemma patchCancel_missing ctx id w :
  (forall b, Booking.findById (bookings w) id <> inr (Some b)) ->
  success (fst (patchCancel ctx id w)) = false.
Proof.
  intros Hno. unfold patchCancel. step.
  destruct (Booking.findById (bookings w) id) as [e|[b|]] eqn:E.
  - reflexivity.
  - now destruct (Hno b).
  - step. reflexivity.
Qed.

(** What the cancel route asks for: a success is the cancellation, by its
    owner, of a booking that is neither cancelled nor rejected and has not
    started; the booking is then stored as cancelled, and cancelling it
    again is refused.  The owner's attempt to cancel a cancelled or
    rejected booking is answered 400 and changes nothing. *)
Lemma patchCancel_guard :
  forall ctx id w,
    (success (fst (patchCancel ctx id w)) = true ->
     exists b,
       Booking.findById (bookings w) id = inr (Some b)
       /\ Booking.userId b = user ctx
       /\ Booking.status b <> cancelled /\ Booking.status b <> rejected
       /\ now ctx <= Booking.startTime b
       /\ (exists b',
             Booking.findById (bookings (snd (patchCancel ctx id w))) id
             = inr (Some b')
             /\ Booking.status b' = cancelled)
       /\ patchCancel ctx id (snd (patchCancel ctx id w))
          = (failure 400 "Booking sudah dibatalkan atau ditolak",
             snd (patchCancel ctx id w)))
    /\ (forall b,
          Booking.findById (bookings w) id = inr (Some b) ->
          Booking.userId b = user ctx ->
          Booking.status b = cancelled \/ Booking.status b = rejected ->
          patchCancel ctx id w
          = (failure 400 "Booking sudah dibatalkan atau ditolak", w)).
Proof.
  intros ctx id w. split.
  - intros Hok.
    destruct (Booking.findById (bookings w) id) as [e|[b|]] eqn:Hb;
      try (rewrite patchCancel_missing in Hok; [discriminate|];
           intros b' Hb'; rewrite Hb in Hb'; discriminate).
    exists b. split; [reflexivity|].
    revert Hok. rewrite (patchCancel_found ctx id w b Hb).
    destruct (Nat.eqb (Booking.userId b) (user ctx)) eqn:Hu; simpl negb;
      cbv beta iota; [|simpl; discriminate].
    destruct (Status_eqb (Booking.status b) cancelled) eqn:Hc; simpl orb;
      cbv beta iota; [simpl; discriminate|].
    destruct (Status_eqb (Booking.status b) rejected) eqn:Hr;
      [simpl; discriminate|].
    destruct (Booking.startTime b <? now ctx) eqn:Ht; [simpl; discriminate|].
    intros _. cbv zeta. unfold snd.
    apply Nat.eqb_eq in Hu. apply Status_eqb_neq in Hc, Hr.
    apply Z.ltb_ge in Ht.
    set (b' := Booking.updateStatus b cancelled "Dibatalkan oleh user" (user ctx)).
    assert (Hb' : Booking.findById (Booking.save (bookings w) b') id
                  = inr (Some b'))
      by (apply (findById_save (bookings w) id b b' Hb); reflexivity).
    repeat (split; [assumption|]).
    split.
    + exists b'. split; [exact Hb'|reflexivity].
    + rewrite (patchCancel_found ctx id
                 {| bookings := Booking.save (bookings w) b';
                    rooms := rooms w; uploads := uploads w |} b' Hb').
      simpl Booking.userId. rewrite Hu, Nat.eqb_refl. reflexivity.
  - intros b Hb Hu Hst.
    rewrite (patchCancel_found ctx id w b Hb), Hu, Nat.eqb_refl.
    simpl negb. cbv beta iota.
    destruct Hst as [-> | ->]; reflexivity.
Qed.

(** C6.  The guard of the cancel route names cancelled and rejected, not
    completed: the owner of a completed booking whose start is still ahead
    passes every test, the route hands the booking to [updateStatus] for
    cancelled, stores what it returns and answers 200.  On the same booking
    the status route refuses every target, since nothing leaves completed
    there, and the delete route counts completed among the terminal
    statuses. *)
Theorem patchCancel_accepts_completed :
  forall ctx id w b,
    Booking.findById (bookings w) id = inr (Some b) ->
    Booking.userId b = user ctx ->
    Booking.status b = completed ->
    now ctx <= Booking.startTime b ->
    let b' :=
      Booking.updateStatus b cancelled "Dibatalkan oleh user" (user ctx) in
    patchCancel ctx id w
    = (successWith 200 "Booking berhasil dibatalkan" (Some b'),
       {| bookings := Booking.save (bookings w) b';
          rooms := rooms w; uploads := uploads w |})
    /\ Booking.findById (Booking.save (bookings w) b') id = inr (Some b')
    /\ Booking.status b' = cancelled
    /\ (forall admin body s target,
          s_status body = Some s -> statusOfString s = Some target ->
          In target [approved; rejected; completed] ->
          patchStatus admin id body w = (failure 400 (refusal target), w))
    /\ terminal (Booking.status b) = true.
Proof.
  intros ctx id w b Hb Hu Hst Hnow b'.
  split; [|split; [|split; [|split]]].
  - rewrite (patchCancel_found ctx id w b Hb), Hu, Nat.eqb_refl, Hst.
    simpl negb. simpl orb. cbv beta iota.
    replace (Booking.startTime b <? now ctx) with false
      by (symmetry; apply Z.ltb_ge; exact Hnow).
    reflexivity.
  - apply (findById_save (bookings w) id b b' Hb). reflexivity.
  - reflexivity.
  - intros admin body s target Hs Ht Hin.
    rewrite (patchStatus_found admin id body w b s target Hb Hs Ht Hin), Hst.
    destruct Hin as [<-|[<-|[<-|[]]]]; reflexivity.
  - rewrite Hst. reflexivity.
Qed.

(** An approved booking that starts tomorrow is marked completed by an
    admin; its owner then cancels it: the route answers 200 and the stored
    status goes from completed to cancelled. *)
Lemma patchCancel_accepts_completed_witness :
  let w0 := Sample.world [Sample.booking 1 2 4 approved None] [] in
  let w1 :=
    snd (patchStatus (Sample.caller 1 None) (IdOf 1)
           (Sample.setStatus "completed") w0) in
  let run := patchCancel (Sample.caller 7 None) (IdOf 1) w1 in
  map Booking.status (bookings w1) = [completed]
  /\ code (fst run) = 200 /\ success (fst run) = true
  /\ message (fst run) = "Booking berhasil dibatalkan"
  /\ map Booking.status (bookings (snd run)) = [cancelled].
Proof.
  intros w0 w1 run.
  destruct (patchCancel_accepts_completed (Sample.caller 7 None) (IdOf 1) w1
              (Booking.updateStatus (Sample.booking 1 2 4 approved None)
                 completed "" 1))
    as (E & _).
  - reflexivity.
  - reflexivity.
  - reflexivity.
  - vm_compute. congruence.
  - split; [reflexivity|]. unfold run. rewrite E.
    repeat split; reflexivity.
Defined.

(* ------------------------------------------------------------------ *)
(** ** Deleting *)

Lemma terminal_iff s :
  terminal s = true <-> s = cancelled \/ s = rejected \/ s = completed.
Proof.
  destruct s; simpl; split; intros H; try reflexivity; try discriminate;
    try tauto; destruct H as [H|[H|H]]; discriminate.
Qed.

Lemma removeBooking_found h id w b msg :
  Booking.findById (bookings w) id = inr (Some b) ->
  tryCatch (removeBooking b id msg) h w = (successWith 200 msg None, without b w).
Proof.
  intros Hb. unfold removeBooking, without.
  destruct (Booking.documentPath b) as [path|]; repeat step; simpl bookings.
  - destruct (findById_delete (bookings w) id b Hb) as [-> _].
    repeat step. reflexivity.
  - destruct (findById_delete (bookings w) id b Hb) as [-> _].
    repeat step. destruct w; reflexivity.
Qed.

(** What the two delete routes do with a stored booking. *)
Lemma deleteBooking_found ctx id w b :
  Booking.findById (bookings w) id = inr (Some b) ->
  deleteBooking ctx id w
  = if negb (Nat.eqb (Booking.userId b) (user ctx))
    then (failure 403 "Tidak memiliki akses untuk menghapus booking ini", w)
    else if negb (terminal (Booking.status b))
    then (failure 400
            "Hanya booking yang dibatalkan, ditolak, atau sudah selesai yang dapat dihapus",
          w)
    else (successWith 200 "Booking berhasil dihapus" None, without b w).
Proof.
  intros Hb. unfold deleteBooking.
  step. rewrite Hb. repeat step.
  destruct (negb _); [reflexivity|].
  unfold terminal. destruct (negb _); [reflexivity|].
  apply removeBooking_found. exact Hb.
Qed.

Lemma deleteAdminBooking_found ctx id w b :
  Booking.findById (bookings w) id = inr (Some b) ->
  deleteAdminBooking ctx id w
  = (successWith 200 "Booking berhasil dihapus oleh admin" None, without b w).
Proof.
  intros Hb. unfold deleteAdminBooking.
  step. rewrite Hb. repeat step.
  apply removeBooking_found. exact Hb.
Qed.

Lemma deleteBooking_missing ctx id w :
  (forall b, Booking.findById (bookings w) id <> inr (Some b)) ->
  success (fst (deleteBooking ctx id w)) = false.
Proof.
  intros Hno. unfold deleteBooking. step.
  destruct (Booking.findById (bookings w) id) as [e|[b|]] eqn:E.
  - reflexivity.
  - now destruct (Hno b).
  - step. reflexivity.
Qed.

Lemma without_gone id w b :
  Booking.findById (bookings w) id = inr (Some b) -> Gone id b (without b w).
Proof.
  intros Hb. split.
  - apply (findById_delete (bookings w) id b Hb).
  - intros path Hp. unfold without. simpl. rewrite Hp.
    apply deleteFile_removes.
Qed.

(** C7 (as amended).  The owner's delete route deletes only a booking whose
    status is cancelled, rejected or completed, and refuses a pending or an
    approved one.  The admin's delete route deletes any stored booking,
    whatever its status.  A deletion on either route removes the record and
    the attached document. *)
Theorem delete_guard :
  forall ctx id w,
    (success (fst (deleteBooking ctx id w)) = true ->
     exists b,
       Booking.findById (bookings w) id = inr (Some b)
       /\ Booking.userId b = user ctx
       /\ (Booking.status b = cancelled \/ Booking.status b = rejected
           \/ Booking.status b = completed)
       /\ Gone id b (snd (deleteBooking ctx id w)))
    /\ (forall b,
          Booking.findById (bookings w) id = inr (Some b) ->
          (Booking.userId b = user ctx ->
           Booking.status b = pending \/ Booking.status b = approved ->
           deleteBooking ctx id w
           = (failure 400
                "Hanya booking yang dibatalkan, ditolak, atau sudah selesai yang dapat dihapus",
              w))
          /\ fst (deleteAdminBooking ctx id w)
             = successWith 200 "Booking berhasil dihapus oleh admin" None
          /\ Gone id b (snd (deleteAdminBooking ctx id w))).
Proof.
  intros ctx id w. split.
  - intros Hok.
    destruct (Booking.findById (bookings w) id) as [e|[b|]] eqn:Hb;
      try (rewrite deleteBooking_missing in Hok; [discriminate|];
           intros b' Hb'; rewrite Hb in Hb'; discriminate).
    exists b. split; [reflexivity|].
    revert Hok. rewrite (deleteBooking_found ctx id w b Hb).
    destruct (Nat.eqb (Booking.userId b) (user ctx)) eqn:Hu; simpl negb;
      cbv beta iota; [|simpl; discriminate].
    destruct (terminal (Booking.status b)) eqn:Ht; simpl negb; cbv beta iota;
      [|simpl; discriminate].
    intros _. apply Nat.eqb_eq in Hu. apply terminal_iff in Ht.
    split; [assumption|]. split; [assumption|].
    apply without_gone. exact Hb.
  - intros b Hb. split; [|split].
    + intros Hu Hst.
      rewrite (deleteBooking_found ctx id w b Hb), Hu, Nat.eqb_refl.
      destruct Hst as [-> | ->]; reflexivity.
    + rewrite (deleteAdminBooking_found ctx id w b Hb). reflexivity.
    + rewrite (deleteAdminBooking_found ctx id w b Hb).
      apply without_gone. exact Hb.
Qed.

(** The owner deletes a cancelled booking with an attached letter. *)
Lemma delete_guard_witness :
  let doc := "uploads/documents/surat.pdf" in
  let b := Sample.booking 1 2 4 cancelled (Some doc) in
  let w := Sample.world [b] [doc] in
  exists b',
    Booking.findById (bookings w) (IdOf 1) = inr (Some b')
    /\ Booking.userId b' = 7%nat
    /\ (Booking.status b' = cancelled \/ Booking.status b' = rejected
        \/ Booking.status b' = completed)
    /\ Gone (IdOf 1) b' (snd (deleteBooking (Sample.caller 7 None) (IdOf 1) w)).
Proof.
  intros doc b w.
  apply (proj1 (delete_guard (Sample.caller 7 None) (IdOf 1) w)).
  reflexivity.
Defined.

(** C7, the counterexample.  The admin route deletes a pending booking and
    an approved one: record and document are removed. *)
Lemma deleteAdminBooking_deletes_pending :
  let doc := "uploads/documents/surat.pdf" in
  let run st :=
    deleteAdminBooking (Sample.caller 1 None) (IdOf 1)
      (Sample.world [Sample.booking 1 2 4 st (Some doc)] [doc]) in
  run pending
  = (successWith 200 "Booking berhasil dihapus oleh admin" None,
     Sample.world [] [])
  /\ run approved
     = (successWith 200 "Booking berhasil dihapus oleh admin" None,
        Sample.world [] []).
Proof. intros doc run. split; reflexivity. Qed.

(* ------------------------------------------------------------------ *)
(** ** Capacity on create and on update *)

(** On create a count above the capacity is never stored: a screened
    request that exceeds the capacity is refused, by the conflict response
    or by the capacity response, and the world is left as it was. *)
Lemma postBooking_over_capacity localOffset createValidators ctx body w
    room start end_ :
  Screened ctx body w room start end_ ->
  exceedsCapacity body room = true ->
  success (fst (postBooking localOffset createValidators ctx body w)) = false
  /\ snd (postBooking localOffset createValidators ctx body w) = w.
Proof.
  intros S Hcap.
  rewrite (postBooking_screened _ _ ctx body w room start end_ S).
  unfold exceedsCapacity in Hcap. rewrite Hcap.
  destruct (Booking.checkConflict _ _ _ _ _); split; reflexivity.
Qed.

(** C5, the update half in general.  The owner of a pending booking that
    has not started sets its participant count to [n]: when the schema
    validators accept the update, the route stores [n], whatever the
    capacity of the room is.  The room is looked up, but its capacity is
    never read. *)
Theorem putBooking_ignores_capacity :
  forall localOffset updateValidators ctx id w b room n,
    Booking.findById (bookings w) id = inr (Some b) ->
    Booking.userId b = user ctx ->
    Booking.status b = pending ->
    now ctx <= Booking.startTime b ->
    Room.findById (rooms w) (IdOf (Booking.roomId b)) = inr (Some room) ->
    Room.isActive room = true ->
    file ctx = None ->
    0 < n < 2 ^ 53 ->
    updateValidators (countUpdate n) = [] ->
    let b' := Booking.applyUpdate (countUpdate n) n b in
    putBooking localOffset updateValidators ctx id (countOnly n) w
    = (successWith 200 "Booking berhasil diupdate" (Some b'),
       {| bookings := Booking.save (bookings w) b';
          rooms := rooms w; uploads := uploads w |})
    /\ Booking.participantsCount b' = n.
Proof.
  intros localOffset updateValidators ctx id w b room n
    Hb Hu Hst Hnow Hroom Hactive Hfile Hn Hval b'.
  split; [|reflexivity].
  assert (Hpast : (Booking.startTime b <? now ctx) = false)
    by (apply Z.ltb_ge; exact Hnow).
  assert (Hz : (n =? 0) = false) by (apply Z.eqb_neq; lia).
  unfold putBooking, countOnly, Booking.findByIdAndUpdate.
  simpl p_activityName. simpl p_startTime. simpl p_endTime.
  simpl p_participantsCount. simpl countTruthy. simpl countParseInt.
  simpl dateTruthy. change (truthy "") with false. simpl orb.
  rewrite Hfile, Hz. simpl negb. cbv beta iota.
  change {| Booking.u_activityName := None;
            Booking.u_participantsCount := Some (Some n);
            Booking.u_documentPath := None;
            Booking.u_startTime := fst (None, None);
            Booking.u_endTime := snd (None, None) |}
    with (countUpdate n).
  repeat (first [ step | rewrite Hb | rewrite Hu | rewrite Nat.eqb_refl
                | rewrite Hst | rewrite Hpast | rewrite Hroom
                | rewrite Hactive | rewrite Hval ];
          cbv beta iota zeta; simpl bookings; simpl (Status_eqb _ _);
          simpl negb; simpl Booking.u_participantsCount; cbv beta iota).
  change (updateValidators _) with (updateValidators (countUpdate n)).
  rewrite Hval. cbv beta iota. repeat step. reflexivity.
Qed.

(** C5, at the failing input.  The hall seats ten.  The owner of a pending
    booking for five sets the count to fifteen: the route answers 200 and
    the booking is stored with fifteen participants.  The same count on
    create is refused. *)
Lemma putBooking_ignores_capacity_witness :
  let b := Sample.booking 1 2 4 pending None in
  let w := Sample.world [b] [] in
  let b' := Booking.applyUpdate (countUpdate 15) 15 b in
  Room.capacity Sample.hall = 10
  /\ (putBooking Sample.jakarta Sample.updateValidators (Sample.caller 7 None)
        (IdOf 1) (countOnly 15) w
      = (successWith 200 "Booking berhasil diupdate" (Some b'),
         Sample.world [b'] [])
      /\ Booking.participantsCount b' = 15).
Proof.
  intros b w b'. split; [reflexivity|].
  apply (putBooking_ignores_capacity Sample.jakarta Sample.updateValidators
           (Sample.caller 7 None) (IdOf 1) w b Sample.hall 15);
    try reflexivity.
  - vm_compute. discriminate.
  - split; reflexivity.
Defined.

(* ------------------------------------------------------------------ *)
(** ** More on creating a booking *)

Section CreateMore.

Variable localOffset : Z -> Z.
Variable createValidators : Booking.Data -> list string.

Local Abbreviation post := (postBooking localOffset createValidators).

(** A request is screened, or it is refused with the world as it was, or
    as it was without the request's upload. *)
Lemma postBooking_screening_world ctx body w :
  (exists room start end_, Screened ctx body w room start end_)
  \/ (success (fst (post ctx body w)) = false
      /\ (snd (post ctx body w) = w
          \/ snd (post ctx body w) = dropUpload ctx w)).
Proof.
  unfold postBooking.
  step.
  destruct (idTruthy (c_roomId body)) eqn:Hid; simpl negb; simpl orb;
    [|right; simpl; tauto].
  destruct (truthy (c_activityName body)) eqn:Hact; simpl negb; simpl orb;
    [|right; simpl; tauto].
  destruct (dateTruthy (c_startTime body)) eqn:Hds; simpl negb; simpl orb;
    [|right; simpl; tauto].
  destruct (dateTruthy (c_endTime body)) eqn:Hde; simpl negb;
    [|right; simpl; tauto].
  cbv beta iota. step.
  destruct (Room.findById (rooms w) (c_roomId body)) as [e|[room|]] eqn:Hroom.
  { right. destruct e; simpl; tauto. }
  2:{ right. step. simpl. tauto. }
  step.
  destruct (Room.isActive room) eqn:Hactive; [|right; simpl; tauto].
  destruct (c_startTime body) as [| |start] eqn:Hs; simpl newDate;
    cbv beta iota; try (right; step; simpl; tauto).
  destruct (c_endTime body) as [| |end_] eqn:He; simpl newDate;
    cbv beta iota; try (right; step; simpl; tauto).
  step.
  destruct (end_ <=? start) eqn:Hle; [right; simpl; tauto|].
  step.
  destruct (start <? now ctx) eqn:Hnow; [right; simpl; tauto|].
  left. exists room, start, end_.
  apply Z.leb_gt in Hle. apply Z.ltb_ge in Hnow.
  unfold Screened. repeat split; assumption.
Qed.

(** X1.  A create request that is answered with success passed every
    check: it is screened, the conflict detector found nothing, its hours
    were inside the window if its two instants share the server's date, and
    the population query went through.  The booking of the response is the
    one appended to the collection; it is pending, belongs to the caller
    and the room, has the requested interval, the upload as its document
    and the trimmed activity name.  If no count was sent (or the number 0)
    its participant count is 1.  Otherwise the count is what [parseInt]
    reads from what was sent, and what was sent, taken as a number, is not
    above the capacity; so a count sent as an integer number or as a
    decimal numeral is stored as it is and is at most the capacity, while a
    text that is no number passes the capacity test whatever [parseInt]
    reads from it. *)
Theorem postBooking_created :
  forall ctx body w,
    success (fst (post ctx body w)) = true ->
    exists room start end_ b,
      Screened ctx body w room start end_
      /\ Booking.checkConflict (bookings w) (Room._id room) start end_ None = None
      /\ (toDateString localOffset start = toDateString localOffset end_ ->
          outsideHours room start end_ = false)
      /\ post ctx body w
         = (createdResponse b,
            {| bookings := (bookings w ++ [b])%list; rooms := rooms w;
               uploads := uploads w |})
      /\ Booking.userId b = user ctx
      /\ Booking.roomId b = Room._id room
      /\ Booking.startTime b = start /\ Booking.endTime b = end_
      /\ Booking.documentPath b = file ctx
      /\ Booking.activityName b = Js.trim (c_activityName body)
      /\ Booking.status b = pending
      /\ populateError ctx = None
      /\ (countTruthy (c_participantsCount body) = true ->
          countParseInt (c_participantsCount body)
          = Some (Booking.participantsCount b)
          /\ Js.gt (countToNumber (c_participantsCount body))
               (Some (Room.capacity room)) = false)
      /\ (forall n,
            c_participantsCount body = CountNumber n
            \/ c_participantsCount body = CountNumeral n ->
            countTruthy (c_participantsCount body) = true ->
            Booking.participantsCount b = n /\ n <= Room.capacity room)
      /\ (countTruthy (c_participantsCount body) = false ->
          Booking.participantsCount b = 1).
Proof.
  intros ctx body w Hok.
  destruct (postBooking_success_screened _ _ ctx body w Hok)
    as (room & start & end_ & S).
  exists room, start, end_.
  revert Hok.
  rewrite (postBooking_screened _ _ ctx body w room start end_ S).
  destruct (Booking.checkConflict _ _ _ _ _); [simpl; discriminate|].
  destruct (countTruthy (c_participantsCount body)
            && Js.gt (countToNumber (c_participantsCount body))
                 (Some (Room.capacity room))) eqn:Hcap; [simpl; discriminate|].
  destruct ((toDateString localOffset start =? toDateString localOffset end_)
            && outsideHours room start end_) eqn:Hh; [simpl; discriminate|].
  destruct (c_purpose body) as [p|]; [|simpl; discriminate].
  unfold Booking.create, bookingDataOf. simpl Booking.d_participantsCount.
  destruct (if countTruthy (c_participantsCount body)
            then countParseInt (c_participantsCount body) else Some 1)
    as [count|] eqn:Hn; [|simpl; discriminate].
  destruct (createValidators _); [|simpl; discriminate].
  cbv zeta.
  destruct (populateError ctx) as [[| |messages|]|];
    try (simpl; discriminate).
  intros _. eexists. simpl.
  split; [exact S|]. split; [reflexivity|].
  split; [intros E; rewrite E, Z.eqb_refl in Hh; exact Hh|].
  repeat (split; [reflexivity|]).
  split; [|split].
  - intros Ht. rewrite Ht in Hn, Hcap. split; [exact Hn|exact Hcap].
  - intros n Hsent Ht. rewrite Ht in Hn, Hcap. simpl in Hcap.
    simpl Booking.participantsCount.
    destruct Hsent as [Hsent|Hsent]; rewrite Hsent in Hn, Hcap;
      simpl in Hn, Hcap; unfold Js.gt, Js.lt in Hcap;
      apply Z.ltb_ge in Hcap; (split; [congruence|exact Hcap]).
  - intros Hf. rewrite Hf in Hn. simpl Booking.participantsCount. congruence.
Qed.

(** X2.  A request that passes every check but carries no [purpose] throws
    at [purpose.trim()]: it is answered 500, not 400; nothing is written,
    and the catch block deletes the request's upload. *)
Theorem postBooking_without_purpose :
  forall ctx body w room start end_,
    Screened ctx body w room start end_ ->
    Booking.checkConflict (bookings w) (Room._id room) start end_ None = None ->
    exceedsCapacity body room = false ->
    (toDateString localOffset start = toDateString localOffset end_ ->
     outsideHours room start end_ = false) ->
    c_purpose body = None ->
    post ctx body w
    = (failure 500 "Server error saat membuat booking", dropUpload ctx w)
    /\ bookings (dropUpload ctx w) = bookings w
    /\ forall path, file ctx = Some path -> ~ In path (uploads (dropUpload ctx w)).
Proof.
  intros ctx body w room start end_ S Hc Hcap Hh Hp.
  rewrite (postBooking_screened _ _ ctx body w room start end_ S).
  unfold exceedsCapacity in Hcap. rewrite Hc, Hcap, Hp.
  assert (E : (toDateString localOffset start =? toDateString localOffset end_)
              && outsideHours room start end_ = false).
  { destruct (Z.eqb_spec (toDateString localOffset start)
                (toDateString localOffset end_)) as [E|E];
      [rewrite (Hh E)|]; reflexivity. }
  rewrite E. split; [reflexivity|]. unfold dropUpload.
  split.
  - destruct (file ctx); reflexivity.
  - intros path ->. simpl. apply deleteFile_removes.
Qed.

End CreateMore.

(** A request for 10:00-12:00 Jakarta time in the free hall of ten, with
    the count sent as the text 20 orang: it is created, for twenty. *)
Lemma postBooking_created_witness :
  let body :=
    {| c_roomId := IdOf 1; c_activityName := "  Seminar ";
       c_startTime := DateAt (Sample.midnight + 3 * Sample.hour);
       c_purpose := Some "Seminar tahunan";
       c_endTime := DateAt (Sample.midnight + 5 * Sample.hour);
       c_participantsCount := CountText "20 orang" |} in
  exists b,
    fst (postBooking Sample.jakarta Sample.createValidators
           (Sample.caller 9 None) body (Sample.world [] []))
    = createdResponse b
    /\ Booking.activityName b = "Seminar"
    /\ Booking.participantsCount b = 20
    /\ Room.capacity Sample.hall = 10.
Proof.
  intros body.
  destruct (postBooking_created Sample.jakarta Sample.createValidators
              (Sample.caller 9 None) body (Sample.world [] []) eq_refl)
    as (room & start & end_ & b & _ & _ & _ & E & _ & _ & _ & _ & _ & Ha & _
        & _ & Hcount & _).
  exists b. rewrite E. split; [reflexivity|].
  split; [exact Ha|].
  split; [|reflexivity].
  destruct (Hcount eq_refl) as [Hparse _].
  change (Some 20 = Some (Booking.participantsCount b)) in Hparse.
  congruence.
Defined.

(** The same request without its purpose, with an uploaded letter. *)
Lemma postBooking_without_purpose_witness :
  let doc := "uploads/documents/surat.pdf" in
  let body :=
    {| c_roomId := IdOf 1; c_activityName := "Seminar";
       c_startTime := DateAt (Sample.midnight + 3 * Sample.hour);
       c_purpose := None;
       c_endTime := DateAt (Sample.midnight + 5 * Sample.hour);
       c_participantsCount := CountNumber 5 |} in
  postBooking Sample.jakarta Sample.createValidators
    (Sample.caller 9 (Some doc)) body (Sample.world [] [doc])
  = (failure 500 "Server error saat membuat booking", Sample.world [] []).
Proof.
  intros doc body.
  refine (proj1 (postBooking_without_purpose Sample.jakarta
                   Sample.createValidators (Sample.caller 9 (Some doc)) body
                   (Sample.world [] [doc]) Sample.hall
                   (Sample.midnight + 3 * Sample.hour)
                   (Sample.midnight + 5 * Sample.hour) _ _ _ _ _)).
  - unfold Screened. repeat split; vm_compute; congruence.
  - reflexivity.
  - reflexivity.
  - intros _. reflexivity.
  - reflexivity.
Defined.

(* ------------------------------------------------------------------ *)
(** ** Updating a booking *)

Section Update.

Variable localOffset : Z -> Z.
Variable updateValidators : Booking.Update -> list string.

Local Abbreviation put := (putBooking localOffset updateValidators).

Lemma afterReplacing_bookings ctx b w :
  bookings (afterReplacing ctx b w) = bookings w
  /\ rooms (afterReplacing ctx b w) = rooms w.
Proof.
  unfold afterReplacing.
  destruct (file ctx), (Booking.documentPath b); split; reflexivity.
Qed.

(** What the update route does with an editable booking. *)
Lemma putBooking_editable ctx id body w b room :
  Editable ctx id w b room ->
  put ctx id body w = editBooking localOffset updateValidators ctx id body b room w.
Proof.
  intros (Hb & Hu & Hst & Hnow & Hroom & Hactive).
  assert (Hpast : (Booking.startTime b <? now ctx) = false)
    by (apply Z.ltb_ge; exact Hnow).
  unfold putBooking, editBooking, checkWorkingHours, newTime, writeUpdate,
    updateDataOf, afterReplacing, dropUpload.
  repeat (first [ step | rewrite Hb | rewrite Hu | rewrite Nat.eqb_refl
                | rewrite Hst | rewrite Hpast | rewrite Hroom
                | rewrite Hactive ];
          cbv beta iota zeta; simpl (Status_eqb _ _); simpl negb;
          cbv beta iota).
  destruct (file ctx) as [f|]; [destruct (Booking.documentPath b) as [old|]|];
    cbv beta iota; repeat step; cbn [snd fst deleteFile bookings rooms uploads];
    (destruct (dateTruthy (p_startTime body) || dateTruthy (p_endTime body));
     cbv beta iota; repeat step;
     [ destruct (if dateTruthy (p_startTime body)
                 then newDate (p_startTime body)
                 else Some (Booking.startTime b)) as [newStart|];
       [ destruct (if dateTruthy (p_endTime body)
                   then newDate (p_endTime body)
                   else Some (Booking.endTime b)) as [newEnd|] | ];
       cbv beta iota; repeat step; try reflexivity;
       destruct (newEnd <=? newStart); [reflexivity|];
       destruct (newStart <? now ctx); [reflexivity|];
       destruct (toDateString localOffset newStart
                 =? toDateString localOffset newEnd);
       simpl negb; simpl andb; cbv beta iota; repeat step;
       try (destruct (outsideHours room newStart newEnd); [reflexivity|]);
       cbn [bookings rooms uploads];
       (destruct (Booking.checkConflict _ _ _ _ _); repeat step;
        [reflexivity|])
     | ];
     cbn [fst snd bookings rooms uploads];
     destruct (Booking.findByIdAndUpdate _ _ _ _) as [[| |m|]|[[b'|] coll]];
     repeat step; reflexivity).
Qed.

(** A successful update was an edit of an editable booking. *)
Lemma putBooking_success_editable ctx id body w :
  success (fst (put ctx id body w)) = true ->
  exists b room, Editable ctx id w b room.
Proof.
  unfold putBooking. step.
  destruct (Booking.findById (bookings w) id) as [e|[b|]] eqn:Hb;
    [destruct e; simpl; discriminate| |step; simpl; discriminate].
  repeat step.
  destruct (Nat.eqb (Booking.userId b) (user ctx)) eqn:Hu; simpl negb;
    cbv beta iota; [|simpl; discriminate].
  destruct (Status_eqb (Booking.status b) pending) eqn:Hst; simpl negb;
    cbv beta iota; [|simpl; discriminate].
  destruct (Booking.startTime b <? now ctx) eqn:Hpast; [simpl; discriminate|].
  destruct (Room.findById (rooms w) (IdOf (Booking.roomId b)))
    as [e|[room|]] eqn:Hroom;
    [destruct e; simpl; discriminate| |repeat step; simpl; discriminate].
  repeat step.
  destruct (Room.isActive room) eqn:Hactive; [|simpl; discriminate].
  intros _. exists b, room.
  apply Nat.eqb_eq in Hu. apply Status_eqb_eq in Hst. apply Z.ltb_ge in Hpast.
  unfold Editable. repeat split; assumption.
Qed.

(** The write at the end of the update route: when it succeeds, the stored
    booking is the old one with the assigned fields set. *)
Lemma writeUpdate_success ctx id u w b :
  Booking.findById (bookings w) id = inr (Some b) ->
  success (fst (writeUpdate updateValidators ctx id u w)) = true ->
  exists n,
    writeUpdate updateValidators ctx id u w
    = (successWith 200 "Booking berhasil diupdate"
         (Some (Booking.applyUpdate u n b)),
       {| bookings := Booking.save (bookings w) (Booking.applyUpdate u n b);
          rooms := rooms w; uploads := uploads w |})
    /\ (n = Booking.participantsCount b
        \/ Booking.u_participantsCount u = Some (Some n)).
Proof.
  intros Hb. unfold writeUpdate, Booking.findByIdAndUpdate. rewrite Hb.
  destruct (Booking.u_participantsCount u) as [[n|]|] eqn:Hn;
    try (simpl; discriminate);
    (destruct (updateValidators u); [|simpl; discriminate]);
    intros _; eexists; (split; [reflexivity|]); tauto.
Qed.

(** X3.  A successful update is an edit by the owner of a pending booking
    that has not started, in a room that is still active.  The stored
    booking keeps its id, owner, room, purpose and status; every other
    booking is as before.  If the request gave a start or an end, the new interval has
    its end after its start, does not start in the past, was inside the
    operating hours when its two instants share the server's date, and the
    conflict detector, asked to leave out the booking itself, found
    nothing; if it gave neither, the interval is the old one. *)
Theorem putBooking_success :
  forall ctx id body w,
    success (fst (put ctx id body w)) = true ->
    exists b room b',
      Editable ctx id w b room
      /\ fst (put ctx id body w)
         = successWith 200 "Booking berhasil diupdate" (Some b')
      /\ bookings (snd (put ctx id body w)) = Booking.save (bookings w) b'
      /\ rooms (snd (put ctx id body w)) = rooms w
      /\ Booking._id b' = Booking._id b
      /\ Booking.userId b' = Booking.userId b
      /\ Booking.roomId b' = Booking.roomId b
      /\ Booking.purpose b' = Booking.purpose b
      /\ Booking.status b' = pending
      /\ (forall d, In d (bookings w) -> Booking._id d <> Booking._id b ->
                    In d (bookings (snd (put ctx id body w))))
      /\ (dateTruthy (p_startTime body) || dateTruthy (p_endTime body) = false ->
          Booking.startTime b' = Booking.startTime b
          /\ Booking.endTime b' = Booking.endTime b)
      /\ (dateTruthy (p_startTime body) || dateTruthy (p_endTime body) = true ->
          newTime (p_startTime body) (Booking.startTime b)
          = Some (Booking.startTime b')
          /\ newTime (p_endTime body) (Booking.endTime b)
             = Some (Booking.endTime b')
          /\ Booking.startTime b' < Booking.endTime b'
          /\ now ctx <= Booking.startTime b'
          /\ (toDateString localOffset (Booking.startTime b')
              = toDateString localOffset (Booking.endTime b') ->
              outsideHours room (Booking.startTime b') (Booking.endTime b')
              = false)
          /\ Booking.checkConflict (bookings w) (Booking.roomId b)
               (Booking.startTime b') (Booking.endTime b')
               (Some (Booking._id b)) = None).
Proof.
  intros ctx id body w Hok.
  destruct (putBooking_success_editable ctx id body w Hok) as (b & room & E).
  exists b, room.
  assert (Hb : Booking.findById (bookings w) id = inr (Some b)) by apply E.
  assert (Hst : Booking.status b = pending) by apply E.
  assert (Hb1 : Booking.findById (bookings (afterReplacing ctx b w)) id
                = inr (Some b))
    by (rewrite (proj1 (afterReplacing_bookings ctx b w)); exact Hb).
  assert (Frame : forall b',
             Booking._id b' = Booking._id b ->
             forall d, In d (bookings w) -> Booking._id d <> Booking._id b ->
                       In d (Booking.save (bookings w) b')).
  { intros b' Hid d Hin Hne. unfold Booking.save.
    apply in_map_iff. exists d. split; [|exact Hin].
    rewrite Hid. apply Nat.eqb_neq in Hne. rewrite Hne. reflexivity. }
  revert Hok. rewrite (putBooking_editable ctx id body w b room E).
  unfold editBooking.
  destruct (dateTruthy (p_startTime body) || dateTruthy (p_endTime body))
    eqn:Ht.
  - destruct (newTime (p_startTime body) (Booking.startTime b))
      as [newStart|] eqn:Hs; [|simpl; discriminate].
    destruct (newTime (p_endTime body) (Booking.endTime b))
      as [newEnd|] eqn:He; [|simpl; discriminate].
    destruct (newEnd <=? newStart) eqn:Hle; [simpl; discriminate|].
    destruct (newStart <? now ctx) eqn:Hpast; [simpl; discriminate|].
    destruct ((toDateString localOffset newStart
               =? toDateString localOffset newEnd)
              && outsideHours room newStart newEnd) eqn:Hh;
      [simpl; discriminate|].
    destruct (Booking.checkConflict _ _ _ _ _) eqn:Hc; [simpl; discriminate|].
    intros Hok.
    destruct (writeUpdate_success ctx id _ _ b Hb1 Hok) as (n & -> & _).
    eexists. split; [exact E|]. cbn [fst snd bookings rooms].
    rewrite !(proj1 (afterReplacing_bookings ctx b w)),
      !(proj2 (afterReplacing_bookings ctx b w)).
    split; [reflexivity|]. split; [reflexivity|]. split; [reflexivity|].
    split; [reflexivity|]. split; [reflexivity|]. split; [reflexivity|].
    split; [reflexivity|].
    split; [exact Hst|]. split; [apply Frame; reflexivity|].
    split; [discriminate|]. intros _. simpl.
    apply Z.leb_gt in Hle. apply Z.ltb_ge in Hpast.
    repeat (split; [first [reflexivity|assumption|lia]|]).
    split; [|exact Hc].
    intros Hd. rewrite Hd, Z.eqb_refl in Hh. exact Hh.
  - intros Hok.
    destruct (writeUpdate_success ctx id _ _ b Hb1 Hok) as (n & -> & _).
    eexists. split; [exact E|]. cbn [fst snd bookings rooms].
    rewrite !(proj1 (afterReplacing_bookings ctx b w)),
      !(proj2 (afterReplacing_bookings ctx b w)).
    split; [reflexivity|]. split; [reflexivity|]. split; [reflexivity|].
    split; [reflexivity|]. split; [reflexivity|]. split; [reflexivity|].
    split; [reflexivity|].
    split; [exact Hst|]. split; [apply Frame; reflexivity|].
    split; [|discriminate]. intros _. split; reflexivity.
Qed.

(** X4.  An update that arrives with a new document deletes the booking's
    old document before it looks at the rest of the request: whatever the
    answer, the old file is gone; and when the answer is a failure the
    bookings are as before, so the stored booking still names the deleted
    file. *)
Theorem putBooking_drops_old_document :
  forall ctx id body w b room upload old,
    Editable ctx id w b room ->
    file ctx = Some upload ->
    Booking.documentPath b = Some old ->
    ~ In old (uploads (snd (put ctx id body w)))
    /\ (success (fst (put ctx id body w)) = false ->
        bookings (snd (put ctx id body w)) = bookings w
        /\ Booking.findById (bookings (snd (put ctx id body w))) id
           = inr (Some b)).
Proof.
  intros ctx id body w b room upload old E Hf Hd.
  assert (Hb : Booking.findById (bookings w) id = inr (Some b)) by apply E.
  rewrite (putBooking_editable ctx id body w b room E).
  set (w1 := afterReplacing ctx b w).
  assert (Hw1 : ~ In old (uploads w1) /\ bookings w1 = bookings w).
  { unfold w1, afterReplacing. rewrite Hf, Hd. simpl.
    split; [apply deleteFile_removes|reflexivity]. }
  destruct Hw1 as [Hold Hbk].
  assert (Hdrop : forall w2, ~ In old (uploads w2) ->
                             ~ In old (uploads (dropUpload ctx w2))).
  { intros w2 H. unfold dropUpload. rewrite Hf. simpl.
    rewrite filter_In. tauto. }
  assert (Hdropb : forall w2, bookings (dropUpload ctx w2) = bookings w2).
  { intros w2. unfold dropUpload. rewrite Hf. reflexivity. }
  assert (Early : forall r,
             ~ In old (uploads (snd (r, w1)))
             /\ (success (fst (r, w1)) = false ->
                 bookings (snd (r, w1)) = bookings w
                 /\ Booking.findById (bookings (snd (r, w1))) id
                    = inr (Some b))).
  { intros r. simpl. split; [exact Hold|]. intros _. rewrite Hbk.
    split; [reflexivity|exact Hb]. }
  assert (Late : forall u,
             ~ In old (uploads (snd (writeUpdate updateValidators ctx id u w1)))
             /\ (success (fst (writeUpdate updateValidators ctx id u w1)) = false ->
                 bookings (snd (writeUpdate updateValidators ctx id u w1))
                 = bookings w
                 /\ Booking.findById
                      (bookings (snd (writeUpdate updateValidators ctx id u w1)))
                      id = inr (Some b))).
  { intros u. unfold writeUpdate, Booking.findByIdAndUpdate.
    rewrite Hbk, Hb.
    destruct (Booking.u_participantsCount u) as [[n|]|];
      try (destruct (updateValidators u));
      cbn [fst snd success failure successWith bookings uploads];
      (split; [first [apply Hdrop; exact Hold|exact Hold]|]);
      try discriminate; intros _; rewrite Hdropb, Hbk;
      (split; [reflexivity|exact Hb]). }
  unfold editBooking. fold w1.
  destruct (_ || _); [|apply Late].
  destruct (newTime _ _); [|apply Early].
  destruct (newTime _ _); [|apply Early].
  destruct (_ <=? _); [apply Early|].
  destruct (_ <? _); [apply Early|].
  destruct (_ && _); [apply Early|].
  destruct (Booking.checkConflict _ _ _ _ _); [apply Early|apply Late].
Qed.

End Update.

(** The owner moves the start of a pending booking from 10:00 to 09:00
    Jakarta time. *)
Lemma putBooking_success_witness :
  let w := Sample.world [Sample.booking 1 3 5 pending None] [] in
  let body :=
    {| p_activityName := "";
       p_startTime := DateAt (Sample.midnight + 2 * Sample.hour);
       p_endTime := DateMissing; p_participantsCount := CountOmitted |} in
  exists b',
    fst (putBooking Sample.jakarta Sample.updateValidators
           (Sample.caller 7 None) (IdOf 1) body w)
    = successWith 200 "Booking berhasil diupdate" (Some b')
    /\ Booking.startTime b' = Sample.midnight + 2 * Sample.hour
    /\ Booking.endTime b' = Sample.midnight + 5 * Sample.hour
    /\ Booking.status b' = pending.
Proof.
  intros w body.
  destruct (putBooking_success Sample.jakarta Sample.updateValidators
              (Sample.caller 7 None) (IdOf 1) body w eq_refl)
    as (b & room & b' & _ & E & _ & _ & _ & _ & _ & _ & Hst & _).
  exists b'. split; [exact E|].
  vm_compute in E. injection E as E. subst b'.
  repeat split; reflexivity.
Defined.

(** The owner sends a new letter together with an end before the start:
    the update is refused, the old letter is gone all the same. *)
Lemma putBooking_drops_old_document_witness :
  let old := "uploads/documents/lama.pdf" in
  let new := "uploads/documents/baru.pdf" in
  let b := Sample.booking 1 3 5 pending (Some old) in
  let w := Sample.world [b] [old; new] in
  let body :=
    {| p_activityName := ""; p_startTime := DateMissing;
       p_endTime := DateAt (Sample.midnight + 1 * Sample.hour);
       p_participantsCount := CountOmitted |} in
  let result :=
    putBooking Sample.jakarta Sample.updateValidators
      (Sample.caller 7 (Some new)) (IdOf 1) body w in
  success (fst result) = false
  /\ ~ In old (uploads (snd result))
  /\ Booking.findById (bookings (snd result)) (IdOf 1) = inr (Some b).
Proof.
  intros old new b w body result.
  destruct (putBooking_drops_old_document Sample.jakarta
              Sample.updateValidators (Sample.caller 7 (Some new)) (IdOf 1)
              body w b Sample.hall new old) as [Hgone Hkept].
  - unfold Editable. repeat split; vm_compute; congruence.
  - reflexivity.
  - reflexivity.
  - split; [reflexivity|]. split; [exact Hgone|].
    apply Hkept. reflexivity.
Defined.

(* ------------------------------------------------------------------ *)
(** ** Who may touch a booking, and what an unknown id gets *)

(** X5.  The three routes of a booking's owner answer 403 to anyone else,
    before they look at the status, the clock or the body, and change
    nothing. *)
Theorem owner_only :
  forall localOffset updateValidators ctx id body w b,
    Booking.findById (bookings w) id = inr (Some b) ->
    Booking.userId b <> user ctx ->
    putBooking localOffset updateValidators ctx id body w
    = (failure 403 "Tidak memiliki akses untuk mengedit booking ini", w)
    /\ patchCancel ctx id w
       = (failure 403 "Tidak memiliki akses untuk membatalkan booking ini", w)
    /\ deleteBooking ctx id w
       = (failure 403 "Tidak memiliki akses untuk menghapus booking ini", w).
Proof.
  intros localOffset updateValidators ctx id body w b Hb Hne.
  apply Nat.eqb_neq in Hne.
  split; [|split].
  - unfold putBooking. step. rewrite Hb. repeat step.
    rewrite Hne. reflexivity.
  - rewrite (patchCancel_found ctx id w b Hb), Hne. reflexivity.
  - rewrite (deleteBooking_found ctx id w b Hb), Hne. reflexivity.
Qed.

(** User 9 tries the three routes on a booking of user 7. *)
Lemma owner_only_witness :
  let w := Sample.world [Sample.booking 1 3 5 cancelled None] [] in
  code (fst (putBooking Sample.jakarta Sample.updateValidators
               (Sample.caller 9 None) (IdOf 1) (countOnly 3) w)) = 403
  /\ code (fst (patchCancel (Sample.caller 9 None) (IdOf 1) w)) = 403
  /\ code (fst (deleteBooking (Sample.caller 9 None) (IdOf 1) w)) = 403.
Proof.
  intros w.
  destruct (owner_only Sample.jakarta Sample.updateValidators
              (Sample.caller 9 None) (IdOf 1) (countOnly 3) w
              (Sample.booking 1 3 5 cancelled None))
    as (Hput & Hcancel & Hdelete).
  - reflexivity.
  - simpl. lia.
  - rewrite Hput, Hcancel, Hdelete. repeat split; reflexivity.
Defined.

(** X6.  An id under which nothing is stored is answered 404 on every
    route that takes one, and nothing changes.  On the status route the
    body is validated first, so this is the answer to a valid target. *)
Theorem unknown_id_not_found :
  forall localOffset updateValidators ctx role id body sbody w,
    Booking.findById (bookings w) id = inr None ->
    getBooking ctx role id w = (failure 404 "Booking tidak ditemukan", w)
    /\ putBooking localOffset updateValidators ctx id body w
       = (failure 404 "Booking tidak ditemukan", w)
    /\ patchCancel ctx id w = (failure 404 "Booking tidak ditemukan", w)
    /\ deleteBooking ctx id w = (failure 404 "Booking tidak ditemukan", w)
    /\ deleteAdminBooking ctx id w = (failure 404 "Booking tidak ditemukan", w)
    /\ (forall s, s_status sbody = Some s ->
                  In s ["approved"; "rejected"; "completed"]%string ->
                  patchStatus ctx id sbody w
                  = (failure 404 "Booking tidak ditemukan", w)).
Proof.
  intros localOffset updateValidators ctx role id body sbody w Hb.
  repeat split.
  - unfold getBooking. step. rewrite Hb. step. reflexivity.
  - unfold putBooking. step. rewrite Hb. step. reflexivity.
  - unfold patchCancel. step. rewrite Hb. step. reflexivity.
  - unfold deleteBooking. step. rewrite Hb. step. reflexivity.
  - unfold deleteAdminBooking. step. rewrite Hb. step. reflexivity.
  - intros s Hs Hin. unfold patchStatus. rewrite Hs.
    destruct Hin as [<-|[<-|[<-|[]]]]; cbv beta iota;
      change (truthy _) with true; cbv beta iota;
      repeat step; rewrite Hb; repeat step; reflexivity.
Qed.

(** Booking 2 in a world that holds booking 1 only. *)
Lemma unknown_id_not_found_witness :
  let w := Sample.world [Sample.booking 1 3 5 pending None] [] in
  patchCancel (Sample.caller 7 None) (IdOf 2) w
  = (failure 404 "Booking tidak ditemukan", w)
  /\ patchStatus (Sample.caller 1 None) (IdOf 2) (Sample.setStatus "rejected") w
     = (failure 404 "Booking tidak ditemukan", w).
Proof.
  intros w.
  destruct (unknown_id_not_found Sample.jakarta Sample.updateValidators
              (Sample.caller 7 None) "user" (IdOf 2) (countOnly 3)
              (Sample.setStatus "rejected") w eq_refl)
    as (_ & _ & Hcancel & _ & _ & _).
  destruct (unknown_id_not_found Sample.jakarta Sample.updateValidators
              (Sample.caller 1 None) "admin" (IdOf 2) (countOnly 3)
              (Sample.setStatus "rejected") w eq_refl)
    as (_ & _ & _ & _ & _ & Hstatus).
  split; [exact Hcancel|].
  apply (Hstatus "rejected"); [reflexivity|simpl; tauto].
Defined.

(** X7.  An id that is no ObjectId makes the lookup throw.  The read, the
    update and the status route catch the cast error and answer 404; the
    cancel route and the two delete routes have no such case and answer
    500.  The update route's catch block also deletes the request's
    upload. *)
Theorem malformed_id_answers :
  forall localOffset updateValidators ctx role body sbody w,
    getBooking ctx role IdMalformed w
    = (failure 404 "Booking tidak ditemukan", w)
    /\ putBooking localOffset updateValidators ctx IdMalformed body w
       = (failure 404 "Booking tidak ditemukan", dropUpload ctx w)
    /\ patchCancel ctx IdMalformed w
       = (failure 500 "Server error saat membatalkan booking", w)
    /\ deleteBooking ctx IdMalformed w
       = (failure 500 "Server error saat menghapus booking", w)
    /\ deleteAdminBooking ctx IdMalformed w
       = (failure 500 "Server error saat menghapus booking", w)
    /\ (forall s, s_status sbody = Some s ->
                  In s ["approved"; "rejected"; "completed"]%string ->
                  patchStatus ctx IdMalformed sbody w
                  = (failure 404 "Booking tidak ditemukan", w)).
Proof.
  intros localOffset updateValidators ctx role body sbody w.
  repeat split.
  - intros s Hs Hin. unfold patchStatus. rewrite Hs.
    destruct Hin as [<-|[<-|[<-|[]]]]; cbv beta iota;
      change (truthy _) with true; cbv beta iota;
      repeat step; reflexivity.
Qed.

(** X8.  The read route never changes anything, and it shows a stored
    booking to its owner and to an admin only: the answer is a success
    exactly when the booking exists and the caller owns it or has the role
    admin; it then carries that booking.  Anyone else gets 403. *)
Theorem getBooking_access :
  forall ctx role id w,
    snd (getBooking ctx role id w) = w
    /\ (success (fst (getBooking ctx role id w)) = true
        <-> exists b, Booking.findById (bookings w) id = inr (Some b)
                      /\ (Booking.userId b = user ctx \/ role = "admin"%string))
    /\ (forall b, Booking.findById (bookings w) id = inr (Some b) ->
                  fst (getBooking ctx role id w)
                  = if Nat.eqb (Booking.userId b) (user ctx)
                       || String.eqb role "admin"
                    then successWith 200 "" (Some b)
                    else failure 403 "Tidak memiliki akses ke booking ini").
Proof.
  intros ctx role id w. unfold getBooking. step.
  destruct (Booking.findById (bookings w) id) as [e|[b|]] eqn:Hb.
  - split; [destruct e; reflexivity|].
    split; [|discriminate].
    split; [destruct e; simpl; discriminate|].
    intros (b & [=] & _).
  - repeat step.
    assert (HU : Nat.eqb (Booking.userId b) (user ctx) = true
                 <-> Booking.userId b = user ctx) by apply Nat.eqb_eq.
    assert (HR : String.eqb role "admin" = true <-> role = "admin"%string)
      by apply String.eqb_eq.
    destruct (Nat.eqb (Booking.userId b) (user ctx)) eqn:Hu;
      destruct (String.eqb role "admin") eqn:Hr; simpl;
      (split; [reflexivity|]);
      (split; [|intros b0 [= <-]; rewrite Hu, ?Hr; reflexivity]);
      (split;
       [intros H;
        first [discriminate H
              |exists b; split;
               [reflexivity
               |first [left; apply HU; reflexivity
                      |right; apply HR; reflexivity]]]|]);
      try reflexivity.
    intros (b0 & [= <-] & [H|H]); [apply HU in H|apply HR in H]; discriminate.
  - step. split; [reflexivity|].
    split; [|discriminate].
    split; [simpl; discriminate|].
    intros (b & [=] & _).
Qed.

(* ------------------------------------------------------------------ *)
(** ** The body of a status request *)

(** X9.  The status route validates the body before it looks anything
    up: a missing or empty status, and any status other than approved,
    rejected and completed (so also pending and cancelled), is answered
    400, whatever the id is, and nothing changes. *)
Theorem patchStatus_validates_first :
  forall ctx id body w,
    (forall s, s_status body = Some s ->
               ~ In s ["approved"; "rejected"; "completed"]%string) ->
    patchStatus ctx id body w
    = (failure 400
         match s_status body with
         | None | Some EmptyString => "Status harus disediakan"
         | Some _ => "Status harus berupa approved, rejected, atau completed"
         end,
       w).
Proof.
  intros ctx id body w Hno. unfold patchStatus.
  destruct (s_status body) as [s|]; [|step; reflexivity].
  specialize (Hno s eq_refl).
  destruct s as [|c s];
    [change (truthy EmptyString) with false; cbv beta iota; step; reflexivity|].
  change (truthy (String c s)) with true. cbv beta iota.
  assert (E : existsb (String.eqb (String c s))
                ["approved"; "rejected"; "completed"]%string = false).
  { destruct (existsb _ _) eqn:E; [|reflexivity].
    apply existsb_exists in E. destruct E as (x & Hin & Heq).
    apply String.eqb_eq in Heq. subst x. contradiction. }
  repeat step. rewrite E. reflexivity.
Qed.

(** An admin tries to set a booking back to pending, under an id that is
    no ObjectId. *)
Lemma patchStatus_validates_first_witness :
  let w := Sample.world [Sample.booking 1 3 5 approved None] [] in
  patchStatus (Sample.caller 1 None) IdMalformed (Sample.setStatus "pending") w
  = (failure 400 "Status harus berupa approved, rejected, atau completed", w).
Proof.
  intros w.
  apply (patchStatus_validates_first (Sample.caller 1 None) IdMalformed
           (Sample.setStatus "pending") w).
  intros s [= <-]. simpl. intuition discriminate.
Defined.

(* ------------------------------------------------------------------ *)
(** ** What no request does *)

Lemma dropUpload_keeps ctx w :
  bookings (dropUpload ctx w) = bookings w
  /\ rooms (dropUpload ctx w) = rooms w
  /\ incl (uploads (dropUpload ctx w)) (uploads w).
Proof.
  unfold dropUpload. destruct (file ctx); simpl;
    repeat split; first [apply incl_filter|apply incl_refl].
Qed.

Lemma afterReplacing_keeps ctx b w :
  incl (uploads (afterReplacing ctx b w)) (uploads w).
Proof.
  unfold afterReplacing. destruct (file ctx), (Booking.documentPath b); simpl;
    first [apply incl_filter|apply incl_refl].
Qed.

(** A result that only deletes files. *)
Lemma Lawful_files ctx req r w w' :
  bookings w' = bookings w -> rooms w' = rooms w ->
  incl (uploads w') (uploads w) -> Lawful ctx req w (r, w').
Proof.
  intros Hb Hr Hu. unfold Lawful. simpl.
  split; [exact Hr|]. split; [exact Hu|]. split; [intros _ _; exact Hb|].
  rewrite Hb. apply Unchanged.
Qed.

Lemma Lawful_same ctx req r w : Lawful ctx req w (r, w).
Proof. apply Lawful_files; try reflexivity. apply incl_refl. Qed.

(** A result that made a step: a success, or the failure of the population
    query after the write. *)
Lemma Lawful_step ctx req r w w' :
  success r = true \/ populateError ctx <> None ->
  rooms w' = rooms w -> incl (uploads w') (uploads w) ->
  Effect ctx (bookings w) req (bookings w') ->
  Lawful ctx req w (r, w').
Proof.
  intros Hok Hr Hu He. unfold Lawful. simpl.
  split; [exact Hr|]. split; [exact Hu|]. split; [|exact He].
  intros Hf Hp. destruct Hok as [Hok|Hok]; [congruence|contradiction].
Qed.

Lemma getBooking_lawful ctx role id w :
  Lawful ctx (GetBooking role id) w (getBooking ctx role id w).
Proof.
  unfold getBooking. step.
  destruct (Booking.findById (bookings w) id) as [e|[b|]].
  - destruct e; apply Lawful_same.
  - repeat step. destruct (_ && _); apply Lawful_same.
  - step. apply Lawful_same.
Qed.

Lemma patchCancel_lawful ctx id w :
  Lawful ctx (PatchCancel id) w (patchCancel ctx id w).
Proof.
  destruct (Booking.findById (bookings w) id) as [e|[b|]] eqn:Hb.
  - unfold patchCancel. step. rewrite Hb. apply Lawful_same.
  - rewrite (patchCancel_found ctx id w b Hb).
    destruct (Nat.eqb (Booking.userId b) (user ctx)) eqn:Hu; simpl negb;
      cbv beta iota; [|apply Lawful_same].
    destruct (Status_eqb (Booking.status b) cancelled
              || Status_eqb (Booking.status b) rejected) eqn:Hst;
      [apply Lawful_same|].
    destruct (Booking.startTime b <? now ctx) eqn:Hpast;
      [apply Lawful_same|].
    cbv zeta. apply Lawful_step;
      [left; reflexivity|reflexivity|apply incl_refl|].
    simpl bookings. apply Cancelled.
    + exact Hb.
    + apply Nat.eqb_eq. exact Hu.
    + destruct (Booking.status b); simpl in Hst; try discriminate;
        simpl; tauto.
    + apply Z.ltb_ge. exact Hpast.
  - unfold patchCancel. step. rewrite Hb. step. apply Lawful_same.
Qed.

Lemma without_lawful ctx req r w b :
  success r = true ->
  Effect ctx (bookings w) req
    (filter (fun d => negb (Nat.eqb (Booking._id d) (Booking._id b)))
       (bookings w)) ->
  Lawful ctx req w (r, without b w).
Proof.
  intros Hok He. apply Lawful_step; [left; exact Hok|reflexivity| |exact He].
  unfold without. simpl.
  destruct (Booking.documentPath b);
    first [apply incl_filter|apply incl_refl].
Qed.

Lemma deleteBooking_lawful ctx id w :
  Lawful ctx (DeleteBooking id) w (deleteBooking ctx id w).
Proof.
  destruct (Booking.findById (bookings w) id) as [e|[b|]] eqn:Hb.
  - unfold deleteBooking. step. rewrite Hb. apply Lawful_same.
  - rewrite (deleteBooking_found ctx id w b Hb).
    destruct (Nat.eqb (Booking.userId b) (user ctx)) eqn:Hu; simpl negb;
      cbv beta iota; [|apply Lawful_same].
    destruct (terminal (Booking.status b)) eqn:Ht; simpl negb;
      cbv beta iota; [|apply Lawful_same].
    apply without_lawful; [reflexivity|].
    apply Deleted; [exact Hb|apply Nat.eqb_eq; exact Hu|exact Ht].
  - unfold deleteBooking. step. rewrite Hb. step. apply Lawful_same.
Qed.

Lemma deleteAdminBooking_lawful ctx id w :
  Lawful ctx (DeleteAdminBooking id) w (deleteAdminBooking ctx id w).
Proof.
  destruct (Booking.findById (bookings w) id) as [e|[b|]] eqn:Hb.
  - unfold deleteAdminBooking. step. rewrite Hb. apply Lawful_same.
  - rewrite (deleteAdminBooking_found ctx id w b Hb).
    apply without_lawful; [reflexivity|]. apply DeletedByAdmin. exact Hb.
  - unfold deleteAdminBooking. step. rewrite Hb. step. apply Lawful_same.
Qed.

(** A status request leaves the world as it was, or it names a valid target
    for a stored booking. *)
Lemma patchStatus_reaches ctx id body w :
  snd (patchStatus ctx id body w) = w
  \/ exists b s target,
       Booking.findById (bookings w) id = inr (Some b)
       /\ s_status body = Some s /\ statusOfString s = Some target
       /\ In target [approved; rejected; completed].
Proof.
  unfold patchStatus. run; try (left; reflexivity).
  all: right;
    match goal with
    | Hf : Booking.findById _ _ = inr (Some ?t),
      Ha : negb (existsb _ _) = false,
      Ht : statusOfString ?s = Some ?s0 |- _ =>
        exists t, s, s0; repeat split; try assumption;
        apply accepted_status in Ha;
        destruct Ha as [Ha|[Ha|Ha]]; subst s; vm_compute in Ht;
        injection Ht as Ht; subst s0; simpl; tauto
    end.
Qed.

Lemma patchStatus_lawful ctx id body w :
  Lawful ctx (PatchStatus id body) w (patchStatus ctx id body w).
Proof.
  destruct (patchStatus_reaches ctx id body w)
    as [E|(b & s & target & Hb & Hs & Ht & Hin)].
  - destruct (patchStatus ctx id body w) as [r w']. simpl in E. subst w'.
    apply Lawful_same.
  - rewrite (patchStatus_found ctx id body w b s target Hb Hs Ht Hin).
    destruct (allowedb (Booking.status b) target) eqn:Ha; simpl negb;
      cbv beta iota; [|apply Lawful_same].
    destruct (if Status_eqb target approved then _ else None);
      [apply Lawful_same|].
    cbv zeta.
    assert (He : Effect ctx (bookings w) (PatchStatus id body)
                   (Booking.save (bookings w)
                      (Booking.updateStatus b target
                         match s_adminNote body with
                         | Some n => n
                         | None => ""
                         end (user ctx)))).
    { apply Decided; [exact Hb|apply allowedb_iff; exact Ha]. }
    destruct (populateError ctx) as [[| |messages|]|] eqn:Hpop;
      (apply Lawful_step;
       [first [left; reflexivity|right; rewrite Hpop; discriminate]
       |reflexivity|apply incl_refl|exact He]).
Qed.

Section Lifecycle.

Variable localOffset : Z -> Z.
Variable createValidators : Booking.Data -> list string.
Variable updateValidators : Booking.Update -> list string.

Lemma postBooking_lawful ctx body w :
  Lawful ctx (PostBooking body) w
    (postBooking localOffset createValidators ctx body w).
Proof.
  destruct (dropUpload_keeps ctx w) as (Dbk & Drm & Dup).
  destruct (postBooking_screening_world localOffset createValidators ctx body w)
    as [(room & start & end_ & S)|[F Hw]].
  - rewrite (postBooking_screened _ _ ctx body w room start end_ S).
    destruct (Booking.checkConflict _ _ _ _ _); [apply Lawful_same|].
    destruct (_ && _); [apply Lawful_same|].
    destruct (_ && _); [apply Lawful_same|].
    destruct (c_purpose body) as [p|]; [|apply Lawful_files; assumption].
    unfold Booking.create.
    destruct (Booking.d_participantsCount _) as [count|];
      [|apply Lawful_files; assumption].
    destruct (createValidators _); [|apply Lawful_files; assumption].
    cbv zeta.
    match goal with
    | |- context [(bookings w ++ [?x])%list] => set (b := x)
    end.
    set (w' := {| bookings := (bookings w ++ [b])%list; rooms := rooms w;
                  uploads := uploads w |}).
    destruct (dropUpload_keeps ctx w') as (Dbk' & Drm' & Dup').
    assert (He : Effect ctx (bookings w) (PostBooking body) (bookings w'))
      by (apply Created; reflexivity).
    destruct (populateError ctx) as [[| |messages|]|] eqn:Hpop;
      (apply Lawful_step;
       [first [left; reflexivity|right; rewrite Hpop; discriminate]
       |first [exact Drm'|reflexivity]
       |first [exact Dup'|apply incl_refl]
       |first [rewrite Dbk'; exact He|exact He]]).
  - destruct (postBooking localOffset createValidators ctx body w) as [r w'].
    simpl in Hw. destruct Hw as [-> | ->]; [apply Lawful_same|].
    apply Lawful_files; assumption.
Qed.

(** The update route stops at a guard, or the booking is editable. *)
Lemma putBooking_guarded ctx id body w :
  (exists b room, Editable ctx id w b room)
  \/ (success (fst (putBooking localOffset updateValidators ctx id body w))
      = false
      /\ (snd (putBooking localOffset updateValidators ctx id body w) = w
          \/ snd (putBooking localOffset updateValidators ctx id body w)
             = dropUpload ctx w)).
Proof.
  unfold putBooking. step.
  destruct (Booking.findById (bookings w) id) as [e|[b|]] eqn:Hb.
  - right. destruct e; simpl; tauto.
  - repeat step.
    destruct (Nat.eqb (Booking.userId b) (user ctx)) eqn:Hu; simpl negb;
      cbv beta iota; [|right; simpl; tauto].
    destruct (Status_eqb (Booking.status b) pending) eqn:Hst; simpl negb;
      cbv beta iota; [|right; simpl; tauto].
    destruct (Booking.startTime b <? now ctx) eqn:Hpast;
      [right; simpl; tauto|].
    destruct (Room.findById (rooms w) (IdOf (Booking.roomId b)))
      as [e|[room|]] eqn:Hroom;
      [right; destruct e; simpl; tauto| |right; repeat step; simpl; tauto].
    repeat step.
    destruct (Room.isActive room) eqn:Hactive; [|right; simpl; tauto].
    left. exists b, room.
    apply Nat.eqb_eq in Hu. apply Status_eqb_eq in Hst.
    apply Z.ltb_ge in Hpast.
    unfold Editable. repeat split; assumption.
  - right. step. simpl. tauto.
Qed.

Lemma editBooking_lawful ctx id body b room w :
  Editable ctx id w b room ->
  Lawful ctx (PutBooking id body) w
    (editBooking localOffset updateValidators ctx id body b room w).
Proof.
  intros (Hb & Hu & Hst & Hnow & _).
  set (w1 := afterReplacing ctx b w).
  destruct (afterReplacing_bookings ctx b w) as [Hbk Hrm].
  pose proof (afterReplacing_keeps ctx b w) as Hup.
  fold w1 in Hbk, Hrm, Hup.
  destruct (dropUpload_keeps ctx w1) as (Dbk & Drm & Dup).
  assert (Early : forall r, Lawful ctx (PutBooking id body) w (r, w1))
    by (intros r; apply Lawful_files; assumption).
  assert (Late : forall u,
             Lawful ctx (PutBooking id body) w
               (writeUpdate updateValidators ctx id u w1)).
  { intros u. unfold writeUpdate, Booking.findByIdAndUpdate.
    rewrite Hbk, Hb.
    destruct (Booking.u_participantsCount u) as [[n|]|];
      try (destruct (updateValidators u));
      first
        [ apply Lawful_step;
          [left; reflexivity|exact Hrm|exact Hup
          |apply Edited; assumption]
        | apply Lawful_files;
          [congruence|congruence|exact (incl_tran Dup Hup)] ]. }
  unfold editBooking. fold w1.
  destruct (_ || _); [|apply Late].
  destruct (newTime _ _); [|apply Early].
  destruct (newTime _ _); [|apply Early].
  destruct (_ <=? _); [apply Early|].
  destruct (_ <? _); [apply Early|].
  destruct (_ && _); [apply Early|].
  destruct (Booking.checkConflict _ _ _ _ _); [apply Early|apply Late].
Qed.

Lemma putBooking_lawful ctx id body w :
  Lawful ctx (PutBooking id body) w
    (putBooking localOffset updateValidators ctx id body w).
Proof.
  destruct (putBooking_guarded ctx id body w) as [(b & room & E)|[F Hw]].
  - rewrite (putBooking_editable localOffset updateValidators ctx id body w
               b room E).
    apply editBooking_lawful. exact E.
  - destruct (putBooking localOffset updateValidators ctx id body w)
      as [r w'].
    simpl in Hw. destruct Hw as [-> | ->]; [apply Lawful_same|].
    destruct (dropUpload_keeps ctx w) as (Dbk & Drm & Dup).
    apply Lawful_files; assumption.
Qed.

(** X10.  Whatever the request, on any of the seven routes, in any state:
    the rooms are never written; no file appears in the upload directory,
    files are only deleted; a request that is answered with a failure
    leaves every booking as it was, unless the population query that
    follows the write of the create and the status route failed; and the
    booking collection is as it was or has made one step of [Effect] for
    this request: one pending booking of the caller appended by a create
    request, the caller's pending booking replaced by an edit of it, the
    caller's booking replaced by its cancellation (a completed booking
    among them, see C6), a booking replaced by its transition along the
    table, a booking removed. *)
Theorem serve_lifecycle :
  forall ctx req w,
    let result :=
      serve localOffset createValidators updateValidators ctx req w in
    rooms (snd result) = rooms w
    /\ incl (uploads (snd result)) (uploads w)
    /\ (success (fst result) = false -> populateError ctx = None ->
        bookings (snd result) = bookings w)
    /\ Effect ctx (bookings w) req (bookings (snd result)).
Proof.
  intros ctx req w result.
  change (Lawful ctx req w result). subst result.
  destruct req as [body|role id|id body|id|id|id body|id]; simpl serve.
  - apply postBooking_lawful.
  - apply getBooking_lawful.
  - apply putBooking_lawful.
  - apply patchCancel_lawful.
  - apply deleteBooking_lawful.
  - apply patchStatus_lawful.
  - apply deleteAdminBooking_lawful.
Qed.

End Lifecycle.

(* ------------------------------------------------------------------ *)
(** ** The statistics summary *)

Section Statistics.

Local Abbreviation rowOf s rows :=
  (find (fun r : StatRow => Status_eqb (fst r) s) rows).

Local Abbreviation found s rows :=
  (match rowOf s rows with Some r => snd r | None => 0 end).

Lemma countOf_countRow s c s' n :
  countOf s (countRow c (s', n))
  = if Status_eqb s' s then Some n else countOf s c.
Proof. destruct s, s'; reflexivity. Qed.

Lemma rowOf_fresh s (rows : list StatRow) :
  ~ In s (map fst rows) -> rowOf s rows = None.
Proof.
  intros Hnotin. destruct (rowOf s rows) as [r|] eqn:F; [|reflexivity].
  apply find_some in F. destruct F as [Hin Heq].
  apply Status_eqb_eq in Heq. exfalso. apply Hnotin.
  rewrite <- Heq. apply in_map. exact Hin.
Qed.

(** With one row for each status, the key of [s] ends up with the count of
    the row of [s], or keeps its initial value. *)
Lemma countOf_fold s rows :
  forall c,
    NoDup (map fst rows) ->
    countOf s (fold_left countRow rows c)
    = match rowOf s rows with
      | Some r => Some (snd r)
      | None => countOf s c
      end.
Proof.
  induction rows as [|[s' n] rows IH]; intros c Hnd; [reflexivity|].
  inversion Hnd as [|? ? Hnotin Hnd']; subst.
  change (fold_left countRow ((s', n) :: rows) c)
    with (fold_left countRow rows (countRow c (s', n))).
  rewrite (IH _ Hnd'), countOf_countRow.
  simpl find. simpl fst.
  destruct (Status_eqb s' s) eqn:E; [|reflexivity].
  apply Status_eqb_eq in E. subst s'.
  rewrite (rowOf_fresh s rows Hnotin). reflexivity.
Qed.

Lemma total_fold rows :
  forall c,
    n_total (fold_left countRow rows c)
    = n_total c + fold_right Z.add 0 (map snd rows).
Proof.
  induction rows as [|[s n] rows IH]; intros c; simpl; [lia|].
  rewrite IH. simpl. lia.
Qed.

Lemma rows_sum rows :
  NoDup (map fst rows) ->
  fold_right Z.add 0 (map snd rows)
  = found pending rows + found approved rows + found rejected rows
    + found cancelled rows + found completed rows.
Proof.
  induction rows as [|[s n] rows IH]; intros Hnd; [reflexivity|].
  inversion Hnd as [|? ? Hnotin Hnd']; subst.
  simpl map. simpl fold_right. rewrite (IH Hnd').
  pose proof (rowOf_fresh s rows Hnotin) as Hs.
  simpl find. simpl fst.
  destruct s; simpl Status_eqb; cbv iota; rewrite Hs; simpl snd; lia.
Qed.

Lemma having_nonneg s coll : 0 <= having s coll.
Proof. unfold having. lia. Qed.

Lemma having_total coll :
  having pending coll + having approved coll + having rejected coll
  + having cancelled coll + having completed coll
  = Z.of_nat (List.length coll).
Proof.
  unfold having. induction coll as [|b coll IH]; [reflexivity|].
  simpl filter.
  destruct (Booking.status b); simpl Status_eqb; cbv iota;
    simpl List.length; lia.
Qed.

Lemma grouped_row coll rows s :
  GroupedBy coll rows ->
  match rowOf s rows with
  | Some r => snd r = having s coll /\ 0 < having s coll
  | None => having s coll = 0
  end.
Proof.
  intros (Hnd & Hin & Hall).
  destruct (rowOf s rows) as [[s' n]|] eqn:F.
  - apply find_some in F. destruct F as [Hi Heq]. simpl in Heq.
    apply Status_eqb_eq in Heq. subst s'.
    destruct (Hin s n Hi) as [-> Hpos]. simpl. split; [reflexivity|exact Hpos].
  - pose proof (having_nonneg s coll) as Hge.
    destruct (Z.eq_dec (having s coll) 0) as [E|E]; [exact E|].
    assert (Hpos : 0 < having s coll) by lia.
    apply Hall in Hpos. apply (find_none _ _ F) in Hpos. simpl in Hpos.
    destruct s; discriminate.
Qed.

(** X11.  The statistics route turns the rows of the grouping by status
    into the counts of its summary.  When the rows are what grouping the
    bookings of the period gives (one row for each status that occurs, with
    its count, in any order), the summary's total is the number of those
    bookings and its pending, approved, rejected and cancelled counts are
    the numbers of bookings with these statuses.  Completed bookings are
    counted in the total but the summary has no count for them: the four
    counts add up to the total less the completed ones.  The object holds a
    key for completed only if some booking of the period is completed. *)
Theorem summary_counts :
  forall coll rows,
    GroupedBy coll rows ->
    summary rows
    = (Z.of_nat (List.length coll), having pending coll, having approved coll,
       having rejected coll, having cancelled coll)
    /\ having pending coll + having approved coll + having rejected coll
       + having cancelled coll
       = n_total (countRows rows) - having completed coll
    /\ n_completed (countRows rows)
       = if 0 <? having completed coll
         then Some (having completed coll) else None.
Proof.
  intros coll rows G.
  assert (Hnd : NoDup (map fst rows)) by apply G.
  assert (F : forall s,
             countOf s (countRows rows)
             = if 0 <? having s coll then Some (having s coll)
               else countOf s noCounts).
  { intros s. unfold countRows. rewrite (countOf_fold s rows _ Hnd).
    pose proof (grouped_row coll rows s G) as R.
    destruct (rowOf s rows) as [r|].
    - destruct R as [-> Hpos]. apply Z.ltb_lt in Hpos. rewrite Hpos.
      reflexivity.
    - rewrite R. reflexivity. }
  assert (V : forall s n,
             (if 0 <? having s coll then Some (having s coll) else Some 0)
             = Some n -> n = having s coll).
  { intros s n. pose proof (having_nonneg s coll).
    destruct (0 <? having s coll) eqn:E; intros [= <-];
      [reflexivity|apply Z.ltb_ge in E; lia]. }
  assert (T : n_total (countRows rows) = Z.of_nat (List.length coll)).
  { unfold countRows. rewrite total_fold, (rows_sum rows Hnd).
    rewrite <- having_total. simpl n_total.
    pose proof (grouped_row coll rows pending G) as Rp.
    pose proof (grouped_row coll rows approved G) as Ra.
    pose proof (grouped_row coll rows rejected G) as Rr.
    pose proof (grouped_row coll rows cancelled G) as Rc.
    pose proof (grouped_row coll rows completed G) as Rd.
    destruct (rowOf pending rows), (rowOf approved rows),
      (rowOf rejected rows), (rowOf cancelled rows), (rowOf completed rows);
      lia. }
  pose proof (F pending) as Fp. pose proof (F approved) as Fa.
  pose proof (F rejected) as Fr. pose proof (F cancelled) as Fc.
  pose proof (F completed) as Fd.
  simpl countOf in Fp, Fa, Fr, Fc, Fd.
  symmetry in Fp, Fa, Fr, Fc.
  apply V in Fp, Fa, Fr, Fc.
  split; [|split].
  - unfold summary. cbv zeta. rewrite T, Fp, Fa, Fr, Fc. reflexivity.
  - rewrite T, <- having_total. lia.
  - exact Fd.
Qed.

End Statistics.

(** A period with four bookings: one pending, two approved, one
    completed.  The summary reports a total of four and counts for three
    of them. *)
Lemma summary_counts_witness :
  let coll :=
    [Sample.booking 1 1 2 pending None; Sample.booking 2 2 3 approved None;
     Sample.booking 3 3 4 completed None; Sample.booking 4 4 5 approved None] in
  summary [(approved, 2); (completed, 1); (pending, 1)] = (4, 1, 2, 0, 0).
Proof.
  intros coll.
  refine (proj1 (summary_counts coll
                   [(approved, 2); (completed, 1); (pending, 1)] _)).
  split; [|split].
  - repeat constructor; simpl; intuition discriminate.
  - intros s n [H|[H|[H|[]]]]; injection H as <- <-; split; reflexivity.
  - intros s; destruct s; vm_compute; intros H; try discriminate H; tauto.
Defined.

(* ------------------------------------------------------------------ *)
(** ** The headers of a download *)

Section DownloadHeaders.

Local Abbreviation dotless ext :=
  (forall n, String.get n ext <> Some "."%char).

Lemma dotless_tail c ext : dotless (String c ext) -> dotless ext.
Proof. intros H n. exact (H (S n)). Qed.

Lemma lastSegment_dotless ext :
  forall acc, dotless ext ->
              Download.lastSegment ext acc = Js.reverse acc ext.
Proof.
  induction ext as [|c ext IH]; intros acc H; [reflexivity|].
  simpl Download.lastSegment.
  destruct (Ascii.eqb_spec c ".") as [E|E].
  - subst c. destruct (H 0%nat). reflexivity.
  - rewrite (IH _ (dotless_tail c ext H)). reflexivity.
Qed.

Lemma lastSegment_after_dot stem ext :
  forall acc,
    Download.lastSegment (stem ++ String "." ext) acc
    = Download.lastSegment ext "".
Proof.
  induction stem as [|c stem IH]; intros acc; [reflexivity|].
  simpl. destruct (Ascii.eqb c "."); apply IH.
Qed.

Lemma validValue_app a b :
  Download.validValue (a ++ b)
  = Download.validValue a && Download.validValue b.
Proof.
  induction a as [|c a IH]; [reflexivity|].
  simpl. rewrite IH. apply andb_assoc.
Qed.

(** The switch yields inline for four extensions and attachment for every
    other text. *)
Lemma kind_disposition e :
  (snd (Download.kind e) = "inline"
   <-> In e ["pdf"; "jpg"; "jpeg"; "png"])
  /\ (snd (Download.kind e) = "inline"
      \/ snd (Download.kind e) = "attachment").
Proof.
  unfold Download.kind.
  destruct (String.eqb_spec e "pdf") as [->|H1];
    [simpl; intuition discriminate|].
  destruct (String.eqb_spec e "jpg") as [->|H2];
    [simpl; intuition discriminate|].
  destruct (String.eqb_spec e "jpeg") as [->|H3];
    [simpl; intuition discriminate|].
  destruct (String.eqb_spec e "png") as [->|H4];
    [simpl; intuition discriminate|].
  destruct (String.eqb_spec e "doc") as [->|H5];
    [simpl; intuition discriminate|].
  destruct (String.eqb_spec e "docx") as [->|H6];
    simpl; intuition (try discriminate; try congruence).
Qed.

Lemma headers_by_kind filename :
  Download.headers filename
  = let k := Download.kind (Download.extension filename) in
    let quote := String (ascii_of_nat 34) "" in
    if Download.validValue filename
    then Some (fst k, snd k ++ "; filename=" ++ quote ++ filename ++ quote)
    else None.
Proof.
  unfold Download.headers.
  destruct (kind_disposition (Download.extension filename)) as [_ Hd].
  destruct (Download.kind (Download.extension filename)) as [ct d].
  simpl in Hd. cbv zeta. simpl fst. simpl snd.
  rewrite !validValue_app.
  destruct Hd as [-> | ->]; simpl;
    rewrite andb_true_r; reflexivity.
Qed.

(** X12.  For a file that exists, the download route sets the content type
    and the disposition by the lower-cased text after the last dot of the
    file name and by nothing else: the part before that dot does not
    matter, and a name without any dot is its own extension.  The
    disposition is inline for pdf, jpg, jpeg and png and attachment for
    everything else, and the header repeats the file name between quotes
    as it is.  A name with a control character makes [setHeader] throw:
    no file is sent. *)
Theorem download_extension :
  forall stem ext,
    dotless ext ->
    let name := stem ++ String "." ext in
    let k := Download.kind (Download.toLowerCase ext) in
    let quote := String (ascii_of_nat 34) "" in
    Download.extension name = Download.toLowerCase ext
    /\ Download.extension ext = Download.toLowerCase ext
    /\ Download.headers name
       = (if Download.validValue name
          then Some (fst k, snd k ++ "; filename=" ++ quote ++ name ++ quote)
          else None)
    /\ Download.headers ext
       = (if Download.validValue ext
          then Some (fst k, snd k ++ "; filename=" ++ quote ++ ext ++ quote)
          else None)
    /\ (snd k = "inline"
        <-> In (Download.toLowerCase ext) ["pdf"; "jpg"; "jpeg"; "png"])
    /\ (snd k = "inline" \/ snd k = "attachment").
Proof.
  intros stem ext H name k quote.
  assert (E1 : Download.extension name = Download.toLowerCase ext).
  { unfold Download.extension, name.
    rewrite lastSegment_after_dot, (lastSegment_dotless ext "" H).
    reflexivity. }
  assert (E2 : Download.extension ext = Download.toLowerCase ext).
  { unfold Download.extension. rewrite (lastSegment_dotless ext "" H).
    reflexivity. }
  split; [exact E1|]. split; [exact E2|].
  split; [rewrite headers_by_kind, E1; reflexivity|].
  split; [rewrite headers_by_kind, E2; reflexivity|].
  apply kind_disposition.
Qed.

End DownloadHeaders.

(** A letter saved as Surat.Izin.PDF is served as a PDF to view inline; so
    is a file whose whole name is PDF. *)
Lemma download_extension_witness :
  let quote := String (ascii_of_nat 34) "" in
  Download.headers "Surat.Izin.PDF"
  = Some ("application/pdf",
          "inline; filename=" ++ quote ++ "Surat.Izin.PDF" ++ quote)
  /\ Download.headers "PDF"
     = Some ("application/pdf", "inline; filename=" ++ quote ++ "PDF" ++ quote).
Proof.
  intros quote.
  destruct (download_extension "Surat.Izin" "PDF") as (_ & _ & H1 & H2 & _).
  - intros [|[|[|n]]]; simpl; discriminate.
  - split; [exact H1|exact H2].
Defined.

(* ------------------------------------------------------------------ *)
(** ** More concrete runs *)

(** 06:00-09:00 Jakarta time in the hall that opens at 08:00, on a server
    on Jakarta time: refused with the window. *)
Lemma postBooking_hours_on_jakarta_time_witness :
  let body :=
    {| c_roomId := IdOf 1; c_activityName := "Senam pagi";
       c_startTime := DateAt (Sample.midnight - 1 * Sample.hour);
       c_purpose := Some "Olahraga";
       c_endTime := DateAt (Sample.midnight + 2 * Sample.hour);
       c_participantsCount := CountOmitted |} in
  let w := Sample.world [] [] in
  postBooking Sample.jakarta Sample.createValidators (Sample.caller 9 None)
    body w
  = (closedResponse Sample.hall, w).
Proof.
  intros body w.
  refine (proj1 (postBooking_hours_on_jakarta_time Sample.jakarta
                   Sample.createValidators (Sample.caller 9 None) body w
                   Sample.hall (Sample.midnight - 1 * Sample.hour)
                   (Sample.midnight + 2 * Sample.hour) 8 17
                   _ _ _ _ _ _) _ _).
  - reflexivity.
  - unfold Screened. repeat split; vm_compute; congruence.
  - reflexivity.
  - reflexivity.
  - reflexivity.
  - reflexivity.
  - reflexivity.
  - vm_compute. intros [[H _] _]. apply H. reflexivity.
Defined.

(* ------------------------------------------------------------------ *)
(** ** Cancelling, then deleting *)

(** X14.  What the cancel route stores, the delete route accepts: after a
    successful cancellation the owner's delete request for the same id
    succeeds, at any later time, and the booking is gone. *)
Theorem cancel_then_delete :
  forall ctx ctx' id w,
    success (fst (patchCancel ctx id w)) = true ->
    user ctx' = user ctx ->
    success (fst (deleteBooking ctx' id (snd (patchCancel ctx id w)))) = true
    /\ Booking.findById
         (bookings (snd (deleteBooking ctx' id (snd (patchCancel ctx id w)))))
         id = inr None.
Proof.
  intros ctx ctx' id w Hok Hu.
  destruct (Booking.findById (bookings w) id) as [e|[b|]] eqn:Hb;
    [rewrite (patchCancel_missing ctx id w) in Hok;
     [discriminate|intros b; congruence]
    | |rewrite (patchCancel_missing ctx id w) in Hok;
       [discriminate|intros b; congruence]].
  revert Hok. rewrite (patchCancel_found ctx id w b Hb).
  destruct (Nat.eqb (Booking.userId b) (user ctx)) eqn:Ho; simpl negb;
    cbv beta iota; [|simpl; discriminate].
  destruct (_ || _); [simpl; discriminate|].
  destruct (_ <? _); [simpl; discriminate|].
  intros _. cbv zeta. simpl snd.
  set (b' := Booking.updateStatus b cancelled "Dibatalkan oleh user" (user ctx)).
  set (w1 := {| bookings := Booking.save (bookings w) b';
                rooms := rooms w; uploads := uploads w |}).
  assert (Hb' : Booking.findById (bookings w1) id = inr (Some b'))
    by (apply (findById_save (bookings w) id b); [exact Hb|reflexivity]).
  rewrite (deleteBooking_found ctx' id w1 b' Hb').
  simpl Booking.userId. rewrite Hu, Ho. simpl.
  split; [reflexivity|].
  apply (findById_delete _ _ _ Hb').
Qed.

(** User 7 cancels the pending booking 1 and deletes it a day later. *)
Lemma cancel_then_delete_witness :
  let w := Sample.world [Sample.booking 1 3 5 pending None] [] in
  let later :=
    {| user := 7; now := Sample.midnight; file := None;
       populateError := None |} in
  Booking.findById
    (bookings
       (snd (deleteBooking later (IdOf 1)
               (snd (patchCancel (Sample.caller 7 None) (IdOf 1) w)))))
    (IdOf 1) = inr None.
Proof.
  intros w later.
  exact (proj2 (cancel_then_delete (Sample.caller 7 None) later (IdOf 1) w
                  eq_refl eq_refl)).
Defined.

(* ------------------------------------------------------------------ *)
(** ** A count that is no number *)



(* ------------------------------------------------------------------ *)
(** ** The population query after the write *)

(** X16.  The create route awaits the population of the new booking after
    it has written it.  When that query fails, the catch block answers
    with a failure and deletes the request's upload, but the booking stays
    written: a record that names a file that is gone. *)
Theorem postBooking_populate_failure :
  forall localOffset createValidators ctx body w room start end_ p b coll
         error,
    Screened ctx body w room start end_ ->
    Booking.checkConflict (bookings w) (Room._id room) start end_ None = None ->
    exceedsCapacity body room = false ->
    (toDateString localOffset start = toDateString localOffset end_ ->
     outsideHours room start end_ = false) ->
    c_purpose body = Some p ->
    Booking.create createValidators (bookings w)
      (bookingDataOf ctx body room start end_ p) = inr (b, coll) ->
    populateError ctx = Some error ->
    let result := postBooking localOffset createValidators ctx body w in
    success (fst result) = false
    /\ code (fst result)
       = match error with ValidationError _ => 400 | _ => 500 end
    /\ bookings (snd result) = (bookings w ++ [b])%list
    /\ Booking.documentPath b = file ctx
    /\ forall path, file ctx = Some path -> ~ In path (uploads (snd result)).
Proof.
  intros localOffset createValidators ctx body w room start end_ p b coll
    error S Hc Hcap Hh Hp Hcreate Hpop result.
  assert (E : (toDateString localOffset start =? toDateString localOffset end_)
              && outsideHours room start end_ = false).
  { destruct (Z.eqb_spec (toDateString localOffset start)
                (toDateString localOffset end_)) as [E|E];
      [rewrite (Hh E)|]; reflexivity. }
  assert (Hb : coll = (bookings w ++ [b])%list
               /\ Booking.documentPath b = file ctx).
  { unfold Booking.create in Hcreate.
    destruct (Booking.d_participantsCount _); [|discriminate].
    destruct (createValidators _); [|discriminate].
    injection Hcreate as <- <-. split; reflexivity. }
  destruct Hb as [-> Hdoc].
  subst result.
  rewrite (postBooking_screened _ _ ctx body w room start end_ S).
  unfold exceedsCapacity in Hcap. rewrite Hc, Hcap, E, Hp, Hcreate, Hpop.
  cbv zeta.
  assert (Hdrop : forall w',
             bookings (dropUpload ctx w') = bookings w'
             /\ forall path, file ctx = Some path ->
                             ~ In path (uploads (dropUpload ctx w'))).
  { intros w'. unfold dropUpload. split.
    - destruct (file ctx); reflexivity.
    - intros path ->. simpl. apply deleteFile_removes. }
  destruct error as [| |messages|]; simpl fst; simpl snd;
    (split; [reflexivity|]); (split; [reflexivity|]);
    (split; [apply Hdrop|]); (split; [exact Hdoc|apply Hdrop]).
Qed.

(** A create request with a letter, on a day the population query fails. *)
Lemma postBooking_populate_failure_witness :
  let doc := "uploads/documents/surat.pdf" in
  let ctx :=
    {| user := 9; now := Sample.midnight - Sample.day; file := Some doc;
       populateError := Some DatabaseError |} in
  let body :=
    {| c_roomId := IdOf 1; c_activityName := "Seminar";
       c_startTime := DateAt (Sample.midnight + 3 * Sample.hour);
       c_purpose := Some "Seminar tahunan";
       c_endTime := DateAt (Sample.midnight + 5 * Sample.hour);
       c_participantsCount := CountNumber 5 |} in
  let result :=
    postBooking Sample.jakarta Sample.createValidators ctx body
      (Sample.world [] [doc]) in
  code (fst result) = 500
  /\ map Booking.documentPath (bookings (snd result)) = [Some doc]
  /\ uploads (snd result) = [].
Proof.
  intros doc ctx body result.
  destruct (Booking.create Sample.createValidators []
              (bookingDataOf ctx body Sample.hall
                 (Sample.midnight + 3 * Sample.hour)
                 (Sample.midnight + 5 * Sample.hour) "Seminar tahunan"))
    as [e|[b coll]] eqn:Hcreate; [discriminate Hcreate|].
  destruct (postBooking_populate_failure Sample.jakarta
              Sample.createValidators ctx body (Sample.world [] [doc])
              Sample.hall (Sample.midnight + 3 * Sample.hour)
              (Sample.midnight + 5 * Sample.hour) "Seminar tahunan" b coll
              DatabaseError)
    as (_ & Hcode & Hbk & Hdoc & _).
  - unfold Screened. repeat split; vm_compute; congruence.
  - reflexivity.
  - reflexivity.
  - intros _. reflexivity.
  - reflexivity.
  - exact Hcreate.
  - reflexivity.
  - split; [exact Hcode|]. fold result in Hbk. rewrite Hbk. simpl.
    rewrite Hdoc. split; reflexivity.
Defined.

(** X17.  The status route awaits the population of the booking, for the
    notification, after [updateStatus].  When that query fails, the catch
    block answers 500 (404 for a cast error), but the transition stays
    written. *)
Theorem patchStatus_populate_failure :
  forall ctx id body w b s target error,
    Booking.findById (bookings w) id = inr (Some b) ->
    s_status body = Some s -> statusOfString s = Some target ->
    allowedTransition (Booking.status b) target ->
    (target = approved ->
     Booking.checkConflict (bookings w) (Booking.roomId b)
       (Booking.startTime b) (Booking.endTime b) (Some (Booking._id b))
     = None) ->
    populateError ctx = Some error ->
    let note := match s_adminNote body with Some n => n | None => "" end in
    let result := patchStatus ctx id body w in
    success (fst result) = false
    /\ code (fst result) = match error with CastError => 404 | _ => 500 end
    /\ bookings (snd result)
       = Booking.save (bookings w)
           (Booking.updateStatus b target note (user ctx)).
Proof.
  intros ctx id body w b s target error Hb Hs Ht Ha Hc Hpop note result.
  assert (Hin : In target [approved; rejected; completed]).
  { destruct Ha as [[-> _]|[[->| ->] _]]; simpl; tauto. }
  subst result.
  rewrite (patchStatus_found ctx id body w b s target Hb Hs Ht Hin).
  apply allowedb_iff in Ha. rewrite Ha. simpl negb. cbv beta iota.
  assert (E : (if Status_eqb target approved
               then Booking.checkConflict (bookings w) (Booking.roomId b)
                      (Booking.startTime b) (Booking.endTime b)
                      (Some (Booking._id b))
               else None) = None).
  { destruct (Status_eqb target approved) eqn:Et; [|reflexivity].
    apply Hc. apply Status_eqb_eq. exact Et. }
  rewrite E, Hpop. cbv zeta.
  destruct error as [| |messages|]; repeat split; reflexivity.
Qed.

(** An admin rejects a pending booking on a day the population query
    fails: 500, and the booking is rejected. *)
Lemma patchStatus_populate_failure_witness :
  let ctx :=
    {| user := 1; now := Sample.midnight - Sample.day; file := None;
       populateError := Some DatabaseError |} in
  let w := Sample.world [Sample.booking 1 2 4 pending None] [] in
  let result := patchStatus ctx (IdOf 1) (Sample.setStatus "rejected") w in
  code (fst result) = 500
  /\ map Booking.status (bookings (snd result)) = [rejected].
Proof.
  intros ctx w result.
  destruct (patchStatus_populate_failure ctx (IdOf 1)
              (Sample.setStatus "rejected") w
              (Sample.booking 1 2 4 pending None) "rejected" rejected
              DatabaseError)
    as (_ & Hcode & Hbk).
  - reflexivity.
  - reflexivity.
  - reflexivity.
  - right. split; [right; reflexivity|reflexivity].
  - discriminate.
  - reflexivity.
  - split; [exact Hcode|]. fold result in Hbk. rewrite Hbk. reflexivity.
Defined.
